(** * cfdns: a client for the Cloudflare DNS API

    A shallow embedding of [cfdns.go].  Go strings are byte strings and are
    modelled by [string] (a list of 8-bit [ascii]); Go's [int] is [Z].

    The functions of the repository ([NewClient], [ListZones],
    [ListDNSRecords], [CreateDNSRecord], [UpdateDNSRecord],
    [DeleteDNSRecord], [doRequest], [jsonReader]) are embedded one by one.
    The parts of Go's standard library they call ([unicode/utf8],
    [strconv], [encoding/json], [time], [net/http]) are modelled in the
    modules of the same names, after the packages' documented behaviour;
    what the network answers, how a URL is parsed, how a timestamp is read
    and how a dynamically typed value is encoded are parameters. *)

From Stdlib Require Import ZArith String Ascii List Bool Lia DecimalString.
From stdpp Require Import base option list strings gmap.

Open Scope Z_scope.

(** ** Errors and results *)

(** The kinds of [error] value the library calls can return. *)
Inductive jsonError :=
| SyntaxError            (* *json.SyntaxError *)
| ErrUnexpectedEOF       (* io.ErrUnexpectedEOF *)
| EOF                    (* io.EOF *)
| UnmarshalTypeError     (* *json.UnmarshalTypeError *)
| UnmarshalerError       (* returned by an UnmarshalJSON method *)
| MarshalerError         (* *json.MarshalerError, wrapping a MarshalJSON error *)
| UnsupportedError.      (* *json.UnsupportedTypeError / UnsupportedValueError *)

(** Go's [error] interface, restricted to the dynamic types that flow
    through this package.  [errorString s] is [errors.New(s)]. *)
Inductive error :=
| errorString (s : string)
| jsonErr (e : jsonError)
| urlError (rawurl : string)
| transportError (msg : string).

(** [err.Error()] *)
Definition Error (e : error) : string :=
  match e with
  | errorString s => s
  | jsonErr _ => "json: error"
  | urlError u => "parse " +:+ u
  | transportError m => m
  end.

(** A Go result pair [(v, err)] of which exactly one side is meaningful. *)
Inductive Result (A : Type) :=
| ok (a : A)
| fail (e : error).
Arguments ok {A} a.
Arguments fail {A} e.

#[export] Instance Result_ret : MRet Result := fun _ a => ok a.

#[export] Instance Result_bind : MBind Result := fun _ _ k r =>
  match r with
  | ok a => k a
  | fail e => fail e
  end.

(** ** Bytes *)

Definition byte (c : ascii) : Z := Z.of_N (N_of_ascii c).
Definition chr (b : Z) : ascii := ascii_of_N (Z.to_N b).

Definition between (lo b hi : Z) : bool := (lo <=? b) && (b <=? hi).

(** [hex[b]] for the table ["0123456789abcdef"] *)
Definition hex (b : Z) : ascii :=
  if b <? 10 then chr (48 + b) else chr (87 + b).

Fixpoint isPrefix (p s : string) : bool :=
  match p, s with
  | EmptyString, _ => true
  | String a p', String b s' => if Ascii.eqb a b then isPrefix p' s' else false
  | String _ _, EmptyString => false
  end.

Fixpoint drop_bytes (n : nat) (s : string) : string :=
  match n, s with
  | O, _ => s
  | S n', String _ s' => drop_bytes n' s'
  | S _, EmptyString => EmptyString
  end.

Fixpoint take_bytes (n : nat) (s : string) : string :=
  match n, s with
  | O, _ => EmptyString
  | S n', String c s' => String c (take_bytes n' s')
  | S _, EmptyString => EmptyString
  end.

(** [s] occurs in [t] as a contiguous run of bytes. *)
Definition Contains (t s : string) : Prop :=
  exists pre post, t = pre +:+ s +:+ post.

(** The same as a test ([strings.Contains]). *)
Fixpoint contains (t s : string) : bool :=
  isPrefix s t ||
  match t with
  | EmptyString => false
  | String _ t' => contains t' s
  end.

(** ** unicode/utf8 *)

Module utf8.

Definition RuneError : Z := 65533.  (* U+FFFD *)
Definition RuneSelf : Z := 128.
Definition MaxRune : Z := 1114111.  (* U+10FFFF *)

(** An entry of the table [first]: ASCII, invalid, or a lead byte with the
    size of its sequence and the range accepted for the second byte. *)
Inductive firstInfo :=
| AS
| XX
| Lead (size : nat) (lo hi : Z).

Definition first (b : Z) : firstInfo :=
  if b <? 128 then AS
  else if b <? 194 then XX                     (* 0x80-0xC1 *)
  else if b <? 224 then Lead 2 128 191         (* 0xC2-0xDF *)
  else if b =? 224 then Lead 3 160 191         (* 0xE0 *)
  else if b <? 237 then Lead 3 128 191         (* 0xE1-0xEC *)
  else if b =? 237 then Lead 3 128 159         (* 0xED *)
  else if b <? 240 then Lead 3 128 191         (* 0xEE-0xEF *)
  else if b =? 240 then Lead 4 144 191         (* 0xF0 *)
  else if b <? 244 then Lead 4 128 191         (* 0xF1-0xF3 *)
  else if b =? 244 then Lead 4 128 143         (* 0xF4 *)
  else XX.

(** [utf8.DecodeRuneInString]: the first rune of [s] and its width in bytes;
    [(RuneError, 1)] for an invalid encoding, [(RuneError, 0)] for [""]. *)
Definition DecodeRuneInString (s : string) : Z * nat :=
  match s with
  | EmptyString => (RuneError, 0%nat)
  | String c0 t =>
    let s0 := byte c0 in
    match first s0 with
    | AS => (s0, 1%nat)
    | XX => (RuneError, 1%nat)
    | Lead sz lo hi =>
      match t with
      | EmptyString => (RuneError, 1%nat)
      | String c1 t1 =>
        let s1 := byte c1 in
        if negb (between lo s1 hi) then (RuneError, 1%nat)
        else if (sz <=? 2)%nat then
          (Z.lor (Z.shiftl (Z.land s0 31) 6) (Z.land s1 63), 2%nat)
        else
          match t1 with
          | EmptyString => (RuneError, 1%nat)
          | String c2 t2 =>
            let s2 := byte c2 in
            if negb (between 128 s2 191) then (RuneError, 1%nat)
            else if (sz <=? 3)%nat then
              (Z.lor (Z.lor (Z.shiftl (Z.land s0 15) 12)
                            (Z.shiftl (Z.land s1 63) 6))
                     (Z.land s2 63), 3%nat)
            else
              match t2 with
              | EmptyString => (RuneError, 1%nat)
              | String c3 _ =>
                let s3 := byte c3 in
                if negb (between 128 s3 191) then (RuneError, 1%nat)
                else
                  (Z.lor (Z.lor (Z.lor (Z.shiftl (Z.land s0 7) 18)
                                       (Z.shiftl (Z.land s1 63) 12))
                                (Z.shiftl (Z.land s2 63) 6))
                         (Z.land s3 63), 4%nat)
              end
          end
      end
    end
  end.

(** [utf8.AppendRune] to an empty buffer: the UTF-8 encoding of [r];
    surrogates and out-of-range values encode as U+FFFD. *)
Definition EncodeRune (r : Z) : string :=
  let cb (x : Z) := chr (Z.lor 128 (Z.land x 63)) in
  let three (r : Z) :=
    String (chr (Z.lor 224 (Z.shiftr r 12)))
      (String (cb (Z.shiftr r 6)) (String (cb r) EmptyString)) in
  if between 0 r 127 then String (chr r) EmptyString
  else if between 0 r 2047 then
    String (chr (Z.lor 192 (Z.shiftr r 6))) (String (cb r) EmptyString)
  else if (r <? 0) || (MaxRune <? r) || between 55296 r 57343 then
    three RuneError
  else if r <=? 65535 then three r
  else
    String (chr (Z.lor 240 (Z.shiftr r 18)))
      (String (cb (Z.shiftr r 12))
         (String (cb (Z.shiftr r 6)) (String (cb r) EmptyString))).

(** [utf8.ValidString]: [s] consists entirely of well-formed UTF-8
    sequences, stated with the test that tells an ill-formed sequence from
    an encoded U+FFFD: [DecodeRuneInString] gives [(RuneError, 1)]. *)
Fixpoint ValidString_loop (fuel : nat) (s : string) : bool :=
  match s with
  | EmptyString => true
  | String c rest =>
    match fuel with
    | O => false
    | S fuel' =>
      if byte c <? RuneSelf then ValidString_loop fuel' rest
      else
        let '(r, size) := DecodeRuneInString s in
        if (r =? RuneError) && (size =? 1)%nat then false
        else ValidString_loop fuel' (drop_bytes size s)
    end
  end.

Definition ValidString (s : string) : bool := ValidString_loop (String.length s) s.

End utf8.

(** ** strconv *)

Module strconv.

(** [strconv.Itoa] / [strconv.AppendInt(_, n, 10)] *)
Definition Itoa (n : Z) : string := NilZero.string_of_int (Z.to_int n).

(** [n] printed in decimal, left-padded with zeros to [width] digits
    (the [appendInt(b, x, width)] of package [time]). *)
Definition pad (width : nat) (n : Z) : string :=
  let d := Itoa n in
  String.concat "" (repeat "0"%string (width - String.length d)) +:+ d.

Definition isDigit (c : ascii) : bool := between 48 (byte c) 57.

Fixpoint digitsValue (s : string) (acc : Z) : option Z :=
  match s with
  | EmptyString => Some acc
  | String c s' =>
    if isDigit c then digitsValue s' (10 * acc + (byte c - 48)) else None
  end.

(** [strconv.ParseInt(s, 10, 64)]: an optional sign, then one or more
    decimal digits; the value must fit a signed 64-bit integer. *)
Definition ParseInt (s : string) : option Z :=
  let '(neg, ds) :=
    match s with
    | String "-" r => (true, r)
    | String "+" r => (false, r)
    | _ => (false, s)
    end in
  match ds with
  | EmptyString => None
  | _ =>
    match digitsValue ds 0 with
    | None => None
    | Some v =>
      let n := if neg then - v else v in
      if between (- 2 ^ 63) n (2 ^ 63 - 1) then Some n else None
    end
  end.

End strconv.

(** ** encoding/json *)

(** JSON texts are written with ['] for the double quote in this file:
    [jsontext "{'a':1}"] is the text [{"a":1}]. *)
Definition dq : ascii := "034"%char.

Fixpoint jsontext (s : string) : string :=
  match s with
  | EmptyString => EmptyString
  | String c s' => String (if Ascii.eqb c "'" then dq else c) (jsontext s')
  end.

Module json.

(** *** Encoding strings: [appendString] with [escapeHTML = true] *)

(** [htmlSafeSet[b]]: the ASCII bytes written without escaping. *)
Definition htmlSafeSet (b : Z) : bool :=
  between 32 b 127 &&
  negb ((b =? 34) || (b =? 92) || (b =? 60) || (b =? 62) || (b =? 38)).

(** The escape written for an ASCII byte that is not in [htmlSafeSet]. *)
Definition escapeByte (c : ascii) : string :=
  let b := byte c in
  if (b =? 92) || (b =? 34) then String "\" (String c EmptyString)
  else if b =? 8 then "\b"
  else if b =? 12 then "\f"
  else if b =? 10 then "\n"
  else if b =? 13 then "\r"
  else if b =? 9 then "\t"
  else "\u00" +:+ String (hex (Z.shiftr b 4)) (String (hex (Z.land b 15)) EmptyString).

(** The body of the loop [for i := 0; i < len(src); { ... }]; every
    iteration consumes at least one byte, so [fuel = len(src)] suffices. *)
Fixpoint appendString_loop (fuel : nat) (src : string) : string :=
  match fuel, src with
  | O, _ => EmptyString
  | _, EmptyString => EmptyString
  | S fuel', String c rest =>
    let b := byte c in
    if b <? utf8.RuneSelf then
      (if htmlSafeSet b then String c EmptyString else escapeByte c)
        +:+ appendString_loop fuel' rest
    else
      let '(r, size) := utf8.DecodeRuneInString src in
      if (r =? utf8.RuneError) && (size =? 1)%nat then
        "\ufffd" +:+ appendString_loop fuel' rest
      else if (r =? 8232) || (r =? 8233) then
        "\u202" +:+ String (hex (Z.land r 15)) EmptyString
          +:+ appendString_loop fuel' (drop_bytes size src)
      else
        take_bytes size src +:+ appendString_loop fuel' (drop_bytes size src)
  end.

(** The JSON string literal for the Go string [src]. *)
Definition appendString (src : string) : string :=
  String dq (appendString_loop (String.length src) src +:+ String dq EmptyString).

(** *** JSON values *)

(** A parsed JSON text.  A number keeps its literal. *)
#[warnings="-register-all"]
Inductive Value :=
| Null
| Bool (b : bool)
| Number (lit : string)
| Str (s : string)
| Array (elems : list Value)
| Object (members : list (string * Value)).

(** *** Decoding strings: [unquote] *)

Definition hexval (c : ascii) : option Z :=
  let b := byte c in
  if between 48 b 57 then Some (b - 48)
  else if between 97 b 102 then Some (b - 97 + 10)
  else if between 65 b 70 then Some (b - 65 + 10)
  else None.

(** [getu4]: the code unit of a leading [\uXXXX], or [None] (Go's -1). *)
Definition getu4 (s : string) : option Z :=
  match s with
  | String "\" (String "u" (String a (String b (String c (String d _))))) =>
    match hexval a, hexval b, hexval c, hexval d with
    | Some x3, Some x2, Some x1, Some x0 => Some (((x3 * 16 + x2) * 16 + x1) * 16 + x0)
    | _, _, _, _ => None
    end
  | _ => None
  end.

(** [utf16.IsSurrogate] *)
Definition IsSurrogate (r : Z) : bool := between 55296 r 57343.

(** [utf16.DecodeRune]: the code point of a surrogate pair, U+FFFD if the
    pair is not valid. *)
Definition utf16_DecodeRune (r1 : Z) (r2 : option Z) : Z :=
  match r2 with
  | Some r2 =>
    if between 55296 r1 56319 && between 56320 r2 57343
    then Z.lor (Z.shiftl (r1 - 55296) 10) (r2 - 56320) + 65536
    else utf8.RuneError
  | None => utf8.RuneError
  end.

(** The loop of [unquoteBytes] over the inside of a string literal. *)
Fixpoint unquote_loop (fuel : nat) (s : string) : option string :=
  match s with
  | EmptyString => Some EmptyString
  | String c rest =>
    match fuel with
    | O => None
    | S fuel' =>
      let b := byte c in
      if b =? 92 then
        match rest with
        | EmptyString => None
        | String e rest' =>
          let lit (x : ascii) := String x <$> unquote_loop fuel' rest' in
          let eb := byte e in
          if (eb =? 34) || (eb =? 92) || (eb =? 47) || (eb =? 39) then lit e
          else if eb =? 98 then lit (chr 8)
          else if eb =? 102 then lit (chr 12)
          else if eb =? 110 then lit (chr 10)
          else if eb =? 114 then lit (chr 13)
          else if eb =? 116 then lit (chr 9)
          else if eb =? 117 then
            match getu4 s with
            | None => None
            | Some rr =>
              let s6 := drop_bytes 6 s in
              if IsSurrogate rr then
                let dec := utf16_DecodeRune rr (getu4 s6) in
                if negb (dec =? utf8.RuneError) then
                  String.append (utf8.EncodeRune dec)
                    <$> unquote_loop fuel' (drop_bytes 6 s6)
                else
                  String.append (utf8.EncodeRune utf8.RuneError)
                    <$> unquote_loop fuel' s6
              else
                String.append (utf8.EncodeRune rr) <$> unquote_loop fuel' s6
            end
          else None
        end
      else if (b =? 34) || (b <? 32) then None
      else if b <? utf8.RuneSelf then String c <$> unquote_loop fuel' rest
      else
        let '(rr, size) := utf8.DecodeRuneInString s in
        String.append (utf8.EncodeRune rr)
          <$> unquote_loop fuel' (drop_bytes size s)
    end
  end.

(** [unquote] applied to the inside of a literal (quotes removed). *)
Definition unquote (inner : string) : option string :=
  unquote_loop (String.length inner) inner.

(** *** The scanner: [scanner.go], building the value as it goes *)

(** An open object or array on the scanner's [parseState] stack, with what
    has been read of it (in reverse).  [ObjKey] and [ObjColon] are Go's
    [parseObjectKey] (before and after the key), [ObjValue] and [ObjNext]
    are [parseObjectValue] (before and after the value), [Arr] is
    [parseArrayValue]. *)
Inductive frame :=
| ObjKey (done : list (string * Value))
| ObjColon (done : list (string * Value)) (key : string)
| ObjValue (done : list (string * Value)) (key : string)
| ObjNext (done : list (string * Value))
| Arr (done : list Value).

(** The scanner's [step] function; literals being read are kept in
    reverse. *)
Inductive state :=
| stateBeginValue
| stateBeginValueOrEmpty
| stateBeginStringOrEmpty
| stateBeginString
| stateEndValue
| stateEndTop (v : Value)          (* a top-level scalar has been read *)
| stateInString (lit : string)
| stateInStringEsc (lit : string)
| stateInStringEscU (seen : nat) (lit : string)
| stateNeg (lit : string)
| state1 (lit : string)
| state0 (lit : string)
| stateDot (lit : string)
| stateDot0 (lit : string)
| stateE (lit : string)
| stateESign (lit : string)
| stateE0 (lit : string)
| stateWord (rest : string) (v : Value).   (* inside true, false or null *)

Record scanner := Scanner { step : state; parseState : list frame }.

(** What feeding one byte does: go on, the top-level value is complete
    ([scanEnd]), or a syntax error ([scanError]). *)
Inductive scanResult :=
| scanContinue (s : scanner)
| scanEnd (v : Value)
| scanError.

Definition maxNestingDepth : Z := 10000.

Definition isSpace (c : ascii) : bool :=
  let b := byte c in (b =? 32) || (b =? 9) || (b =? 13) || (b =? 10).

(** [revapp seg lit]: the literal kept by the scanner after reading [seg],
    that is [seg] reversed in front of what was read before. *)
Fixpoint revapp (seg lit : string) : string :=
  match seg with
  | EmptyString => lit
  | String c seg' => revapp seg' (String c lit)
  end.

Definition rev_string (s : string) : string := revapp s EmptyString.

(** [pushParseState] *)
Definition pushParseState (f : frame) (ps : list frame) (next : state) : scanResult :=
  if Z.of_nat (length (f :: ps)) <=? maxNestingDepth
  then scanContinue (Scanner next (f :: ps))
  else scanError.

(** A value has been read in full: hand it to the enclosing container,
    then wait for what follows it. *)
Definition valueDone (ps : list frame) (v : Value) : scanResult :=
  match ps with
  | [] => scanContinue (Scanner (stateEndTop v) [])
  | Arr done :: r => scanContinue (Scanner stateEndValue (Arr (v :: done) :: r))
  | ObjValue done k :: r =>
    scanContinue (Scanner stateEndValue (ObjNext ((k, v) :: done) :: r))
  | _ :: _ => scanError
  end.

(** The closing quote of a string literal: an object key or a value. *)
Definition stringDone (ps : list frame) (lit : string) : scanResult :=
  match unquote (rev_string lit) with
  | None => scanError
  | Some s =>
    match ps with
    | ObjKey done :: r => scanContinue (Scanner stateEndValue (ObjColon done s :: r))
    | _ => valueDone ps (Str s)
    end
  end.

(** [popParseState] at a closing bracket; at the top level the value ends
    here (the decoder does not wait for another byte). *)
Definition popParseState (r : list frame) (v : Value) : scanResult :=
  match r with
  | [] => scanEnd v
  | _ :: _ => valueDone r v
  end.

(** [stateEndValue] and [stateEndTop].  After a top-level scalar the next
    byte, whatever it is, ends the value: [stateEndTop] returns [scanEnd]
    and keeps its complaint about a byte that is not white space for the
    next call. *)
Definition endValue (s : scanner) (c : ascii) : scanResult :=
  match step s, parseState s with
  | stateEndTop v, _ => scanEnd v
  | _, [] => scanError
  | _, f :: r =>
    if isSpace c then scanContinue (Scanner stateEndValue (f :: r))
    else
      match f with
      | ObjColon done k =>
        if Ascii.eqb c ":" then scanContinue (Scanner stateBeginValue (ObjValue done k :: r))
        else scanError
      | ObjNext done =>
        if Ascii.eqb c "," then scanContinue (Scanner stateBeginString (ObjKey done :: r))
        else if Ascii.eqb c "}" then popParseState r (Object (rev done))
        else scanError
      | Arr done =>
        if Ascii.eqb c "," then scanContinue (Scanner stateBeginValue (Arr done :: r))
        else if Ascii.eqb c "]" then popParseState r (Array (rev done))
        else scanError
      | ObjKey _ | ObjValue _ _ => scanError
      end
  end.

(** The end of a number literal is seen one byte late: the number is
    handed over and the byte is treated by [stateEndValue]. *)
Definition numberDone (ps : list frame) (lit : string) (c : ascii) : scanResult :=
  match valueDone ps (Number (rev_string lit)) with
  | scanContinue s => endValue s c
  | r => r
  end.

(** [stateBeginValue] *)
Definition beginValue (ps : list frame) (c : ascii) : scanResult :=
  if isSpace c then scanContinue (Scanner stateBeginValue ps)
  else if Ascii.eqb c "{" then pushParseState (ObjKey []) ps stateBeginStringOrEmpty
  else if Ascii.eqb c "[" then pushParseState (Arr []) ps stateBeginValueOrEmpty
  else if Ascii.eqb c dq then scanContinue (Scanner (stateInString EmptyString) ps)
  else if Ascii.eqb c "-" then scanContinue (Scanner (stateNeg (String c EmptyString)) ps)
  else if Ascii.eqb c "0" then scanContinue (Scanner (state0 (String c EmptyString)) ps)
  else if Ascii.eqb c "t" then scanContinue (Scanner (stateWord "rue" (Bool true)) ps)
  else if Ascii.eqb c "f" then scanContinue (Scanner (stateWord "alse" (Bool false)) ps)
  else if Ascii.eqb c "n" then scanContinue (Scanner (stateWord "ull" Null) ps)
  else if between 49 (byte c) 57 then scanContinue (Scanner (state1 (String c EmptyString)) ps)
  else scanError.

(** [stateBeginString] *)
Definition beginString (ps : list frame) (c : ascii) : scanResult :=
  if isSpace c then scanContinue (Scanner stateBeginString ps)
  else if Ascii.eqb c dq then scanContinue (Scanner (stateInString EmptyString) ps)
  else scanError.

(** [state0]: after the integer part of a number *)
Definition after0 (ps : list frame) (lit : string) (c : ascii) : scanResult :=
  if Ascii.eqb c "." then scanContinue (Scanner (stateDot (String c lit)) ps)
  else if Ascii.eqb c "e" || Ascii.eqb c "E" then scanContinue (Scanner (stateE (String c lit)) ps)
  else numberDone ps lit c.

(** [stateESign]: after the sign of an exponent *)
Definition afterESign (ps : list frame) (lit : string) (c : ascii) : scanResult :=
  if strconv.isDigit c then scanContinue (Scanner (stateE0 (String c lit)) ps)
  else scanError.

(** [s.step(s, c)]: feed the byte [c] to the scanner. *)
Definition scan (s : scanner) (c : ascii) : scanResult :=
  let ps := parseState s in
  match step s with
  | stateBeginValue => beginValue ps c
  | stateBeginValueOrEmpty =>
    if isSpace c then scanContinue (Scanner stateBeginValueOrEmpty ps)
    else if Ascii.eqb c "]" then endValue s c
    else beginValue ps c
  | stateBeginStringOrEmpty =>
    if isSpace c then scanContinue (Scanner stateBeginStringOrEmpty ps)
    else if Ascii.eqb c "}" then
      match ps with
      | ObjKey done :: r => endValue (Scanner stateEndValue (ObjNext done :: r)) c
      | _ => scanError
      end
    else beginString ps c
  | stateBeginString => beginString ps c
  | stateEndValue | stateEndTop _ => endValue s c
  | stateInString lit =>
    if Ascii.eqb c dq then stringDone ps lit
    else if Ascii.eqb c "\" then scanContinue (Scanner (stateInStringEsc (String c lit)) ps)
    else if byte c <? 32 then scanError
    else scanContinue (Scanner (stateInString (String c lit)) ps)
  | stateInStringEsc lit =>
    let b := byte c in
    if (b =? 98) || (b =? 102) || (b =? 110) || (b =? 114) || (b =? 116)
       || (b =? 92) || (b =? 47) || (b =? 34)
    then scanContinue (Scanner (stateInString (String c lit)) ps)
    else if b =? 117 then scanContinue (Scanner (stateInStringEscU 0 (String c lit)) ps)
    else scanError
  | stateInStringEscU seen lit =>
    match hexval c with
    | None => scanError
    | Some _ =>
      if (seen <? 3)%nat
      then scanContinue (Scanner (stateInStringEscU (S seen) (String c lit)) ps)
      else scanContinue (Scanner (stateInString (String c lit)) ps)
    end
  | stateNeg lit =>
    if Ascii.eqb c "0" then scanContinue (Scanner (state0 (String c lit)) ps)
    else if between 49 (byte c) 57 then scanContinue (Scanner (state1 (String c lit)) ps)
    else scanError
  | state1 lit =>
    if strconv.isDigit c then scanContinue (Scanner (state1 (String c lit)) ps)
    else after0 ps lit c
  | state0 lit => after0 ps lit c
  | stateDot lit =>
    if strconv.isDigit c then scanContinue (Scanner (stateDot0 (String c lit)) ps)
    else scanError
  | stateDot0 lit =>
    if strconv.isDigit c then scanContinue (Scanner (stateDot0 (String c lit)) ps)
    else if Ascii.eqb c "e" || Ascii.eqb c "E" then scanContinue (Scanner (stateE (String c lit)) ps)
    else numberDone ps lit c
  | stateE lit =>
    if Ascii.eqb c "+" || Ascii.eqb c "-" then scanContinue (Scanner (stateESign (String c lit)) ps)
    else afterESign ps lit c
  | stateESign lit => afterESign ps lit c
  | stateE0 lit =>
    if strconv.isDigit c then scanContinue (Scanner (stateE0 (String c lit)) ps)
    else numberDone ps lit c
  | stateWord rest v =>
    match rest with
    | EmptyString => scanError
    | String x EmptyString => if Ascii.eqb c x then valueDone ps v else scanError
    | String x rest' => if Ascii.eqb c x then scanContinue (Scanner (stateWord rest' v) ps) else scanError
    end
  end.

(** [scanner.reset] *)
Definition reset : scanner := Scanner stateBeginValue [].

(** The input ended: the decoder feeds a space; unless that completes the
    value the error is [io.EOF] when nothing but white space was read and
    [io.ErrUnexpectedEOF] otherwise. *)
Definition atEOF (s : scanner) : Result Value :=
  match scan s " " with
  | scanEnd v => ok v
  | _ =>
    match step s, parseState s with
    | stateBeginValue, [] => fail (jsonErr EOF)
    | _, _ => fail (jsonErr ErrUnexpectedEOF)
    end
  end.

(** [Decoder.readValue] from scanner state [s]: the first JSON value of
    the stream; what follows it is left unread. *)
Fixpoint readValueFrom (s : scanner) (input : string) : Result Value :=
  match input with
  | EmptyString => atEOF s
  | String c rest =>
    match scan s c with
    | scanContinue s' => readValueFrom s' rest
    | scanEnd v => ok v
    | scanError => fail (jsonErr SyntaxError)
    end
  end.

Definition readValue (input : string) : Result Value := readValueFrom reset input.

(** [json.Valid]: the text holds one JSON value and nothing but white
    space around it.  A closing bracket ends a top-level value and is part
    of it; any other byte on which a top-level value ends (the byte after
    a number, a string or a word) has to be white space. *)
Fixpoint allSpace (s : string) : bool :=
  match s with
  | EmptyString => true
  | String c s' => isSpace c && allSpace s'
  end.

Fixpoint validFrom (s : scanner) (input : string) : bool :=
  match input with
  | EmptyString => match scan s " " with scanEnd _ => true | _ => false end
  | String c rest =>
    match scan s c with
    | scanContinue s' => validFrom s' rest
    | scanEnd _ =>
      match parseState s with
      | [] => isSpace c && allSpace rest
      | _ :: _ => allSpace rest
      end
    | scanError => false
    end
  end.

Definition Valid (data : string) : bool := validFrom reset data.

(** *** Decoding into Go values: [decode.go] *)

(** [foldName], as far as it can matter for a field name made of ASCII
    bytes: ASCII letters fold to upper case, and the only other runes that
    fold to an ASCII letter are U+017F (long s, to S) and U+212A (Kelvin
    sign, to K); every other byte is kept. *)
Fixpoint foldName (s : string) : string :=
  match s with
  | EmptyString => EmptyString
  | String c rest =>
    let b := byte c in
    if between 97 b 122 then String (chr (b - 32)) (foldName rest)
    else
      match rest with
      | String c1 rest1 =>
        if (b =? 197) && (byte c1 =? 191) then String "S" (foldName rest1)
        else
          match rest1 with
          | String c2 rest2 =>
            if (b =? 226) && (byte c1 =? 132) && (byte c2 =? 170)
            then String "K" (foldName rest2)
            else String c (foldName rest)
          | EmptyString => String c (foldName rest)
          end
      | EmptyString => String c (foldName rest)
      end
  end.

(** An object key selects the struct field called [name] when it is equal
    to it, or equal to it under case folding. *)
Definition fieldMatch (name key : string) : bool :=
  String.eqb key name || String.eqb (foldName key) (foldName name).

Definition typeError {A} : Result A := fail (jsonErr UnmarshalTypeError).

(** Storing a JSON value into a Go [string] holding [old]. *)
Definition decodeString (old : string) (v : Value) : Result string :=
  match v with
  | Str s => ok s
  | Null => ok old
  | _ => typeError
  end.

(** ... into a Go [bool]. *)
Definition decodeBool (old : bool) (v : Value) : Result bool :=
  match v with
  | Bool b => ok b
  | Null => ok old
  | _ => typeError
  end.

(** ... into a Go [int] (64 bits). *)
Definition decodeInt (old : Z) (v : Value) : Result Z :=
  match v with
  | Number lit =>
    match strconv.ParseInt lit with
    | Some n => ok n
    | None => typeError
    end
  | Null => ok old
  | _ => typeError
  end.

(** ... into a slice: the slice is reset to length zero and every element
    of the array is appended to it, decoded into a zero element; [null]
    gives the nil slice.  This is the decoding of a slice that is nil
    before, as the field of a fresh [res] is when its key comes up for the
    first time; when a key comes up again Go decodes into the elements
    the slice already has, which is not modelled. *)
Fixpoint decodeElems {A} (elem : Value -> Result A) (vs : list Value) : Result (list A) :=
  match vs with
  | [] => ok []
  | v :: vs' => a ← elem v; l ← decodeElems elem vs'; ok (a :: l)
  end.

Definition decodeSlice {A} (elem : Value -> Result A) (old : list A) (v : Value)
  : Result (list A) :=
  match v with
  | Array vs => decodeElems elem vs
  | Null => ok []
  | _ => typeError
  end.

(** ... into a struct holding [old]: the members are taken in the order of
    the text, [field old key v] storing [v] into the field that [key]
    selects (and doing nothing for a key that selects none). *)
Fixpoint decodeMembers {T} (field : T -> string -> Value -> Result T)
    (old : T) (members : list (string * Value)) : Result T :=
  match members with
  | [] => ok old
  | (k, v) :: rest => t ← field old k v; decodeMembers field t rest
  end.

Definition decodeStruct {T} (field : T -> string -> Value -> Result T)
    (old : T) (v : Value) : Result T :=
  match v with
  | Object members => decodeMembers field old members
  | Null => ok old
  | _ => typeError
  end.

(** *** Encoding struct fields: [encode.go] *)

(** One member [ "name":value ] of an encoded struct. *)
Definition member (name value : string) : string :=
  String dq (name +:+ String dq (String ":" value)).

Definition encodeBool (b : bool) : string := if b then "true" else "false".

(** The members a field contributes under [omitempty]: none for the empty
    string and for zero. *)
Definition omitemptyString (name s : string) : list string :=
  match s with
  | EmptyString => []
  | _ => [member name (appendString s)]
  end.

Definition omitemptyInt (name : string) (n : Z) : list string :=
  if n =? 0 then [] else [member name (strconv.Itoa n)].

(** The encoded struct: the members between braces, separated by commas. *)
Definition encodeStruct (members : list string) : string :=
  "{" +:+ String.concat "," members +:+ "}".

(** *** What the decoder makes of an encoded string *)

(** "Coerce to well-formed UTF-8": every byte that does not begin a
    well-formed sequence is replaced by U+FFFD, as [unquote] does. *)
Fixpoint coerce_loop (fuel : nat) (s : string) : string :=
  match fuel, s with
  | O, _ => EmptyString
  | _, EmptyString => EmptyString
  | S fuel', String c rest =>
    if byte c <? utf8.RuneSelf then String c (coerce_loop fuel' rest)
    else
      let '(r, size) := utf8.DecodeRuneInString s in
      if (r =? utf8.RuneError) && (size =? 1)%nat then
        utf8.EncodeRune utf8.RuneError +:+ coerce_loop fuel' rest
      else
        take_bytes size s +:+ coerce_loop fuel' (drop_bytes size s)
  end.

Definition coerce (s : string) : string := coerce_loop (String.length s) s.

(** Feeding the scanner a run of bytes. *)
Fixpoint run (s : scanner) (input : string) : scanResult :=
  match input with
  | EmptyString => scanContinue s
  | String c rest =>
    match scan s c with
    | scanContinue s' => run s' rest
    | r => r
    end
  end.

End json.

(** What the decoder is in the middle of.  A value is [delimited] when it
    ends with its own closing bracket; every other value is a scalar, whose
    end a top-level reader sees only at the byte that follows.  A scanner
    has a scalar pending when the value it may hand over without a closing
    bracket is one; [scalarKept] says so of the result of a step on the
    byte [c]. *)
Definition delimited (v : json.Value) : Prop :=
  match v with json.Object _ | json.Array _ => True | _ => False end.

Definition scalarPending (s : json.scanner) : Prop :=
  match json.step s with
  | json.stateEndTop v | json.stateWord _ v => ~ delimited v
  | _ => True
  end.

Definition scalarKept (c : ascii) (r : json.scanResult) : Prop :=
  match r with
  | json.scanContinue s' => scalarPending s'
  | json.scanEnd v => ~ delimited v \/ json.isSpace c = false
  | json.scanError => True
  end.

(** ** time *)

Module time.

(** A [time.Time], by the calendar date and clock reading it presents in
    its own location, and that location's offset east of UTC in seconds. *)
Record Time := {
  Year : Z; Month : Z; Day : Z;
  Hour : Z; Minute : Z; Second : Z; Nanosecond : Z;
  Offset : Z
}.

(** The zero value of [time.Time]: January 1, year 1, 00:00:00 UTC. *)
Definition zero : Time :=
  {| Year := 1; Month := 1; Day := 1;
     Hour := 0; Minute := 0; Second := 0; Nanosecond := 0; Offset := 0 |}.

(** [appendInt(b, x, width)] *)
Definition appendInt (x : Z) (width : nat) : string :=
  if x <? 0 then "-" +:+ strconv.pad width (- x) else strconv.pad width x.

Fixpoint trimZeros (s : string) : string :=
  match s with
  | EmptyString => EmptyString
  | String c r =>
    match trimZeros r with
    | EmptyString => if Ascii.eqb c "0" then EmptyString else String c EmptyString
    | r' => String c r'
    end
  end.

(** [appendNano] for the layout [.999999999]: the fraction without its
    trailing zeros, nothing at all when it is zero. *)
Definition appendNano (ns : Z) : string :=
  match trimZeros (strconv.pad 9 ns) with
  | EmptyString => EmptyString
  | frac => "." +:+ frac
  end.

(** [t.appendFormatRFC3339(b, true)], the layout [time.RFC3339Nano] *)
Definition appendFormatRFC3339 (t : Time) : string :=
  appendInt (Year t) 4 +:+ "-" +:+ appendInt (Month t) 2 +:+ "-" +:+ appendInt (Day t) 2
  +:+ "T" +:+ appendInt (Hour t) 2 +:+ ":" +:+ appendInt (Minute t) 2
  +:+ ":" +:+ appendInt (Second t) 2 +:+ appendNano (Nanosecond t)
  +:+ (if Offset t =? 0 then "Z"
       else
         let zone := Z.quot (Offset t) 60 in
         (if zone <? 0 then "-" else "+")
         +:+ appendInt (Z.quot (Z.abs zone) 60) 2 +:+ ":"
         +:+ appendInt (Z.rem (Z.abs zone) 60) 2).

(** [Time.MarshalJSON]: the quoted RFC 3339 text; an error when the year
    is outside [0,9999] or the zone's hour outside [0,23]. *)
Definition MarshalJSON (t : Time) : Result string :=
  if negb (between 0 (Year t) 9999) then fail (jsonErr MarshalerError)
  else if negb (Offset t =? 0) && (24 <=? Z.quot (Z.abs (Z.quot (Offset t) 60)) 60)
  then fail (jsonErr MarshalerError)
  else ok (String dq (appendFormatRFC3339 t +:+ String dq EmptyString)).

End time.

(** ** net/http *)

Module http.

(** [http.Header]: canonical header names to their values. *)
Abbreviation Header := (gmap string (list string)).

(** [h.Set(key, value)], for a [key] already in canonical form. *)
Definition Header_Set (key value : string) (h : Header) : Header :=
  <[key := [value]]> h.

(** [h.Get(key)]: the first value, [""] if there is none. *)
Definition Header_Get (key : string) (h : Header) : string :=
  match h !! key with
  | Some (v :: _) => v
  | _ => EmptyString
  end.

Module Request.
Record t := mk {
  Method : string;
  URL : string;
  Header : gmap string (list string);   (* [http.Header] *)
  Body : option string           (* [None] is the nil [io.Reader] *)
}.
End Request.

(** A response body: an [io.ReadCloser] known by its handle, and the bytes
    the server sent. *)
Record ReadCloser := { handle : nat; content : string }.

Module Response.
Record t := mk {
  Status : string;               (* e.g. "200 OK" *)
  StatusCode : Z;                (* e.g. 200 *)
  Body : ReadCloser
}.
End Response.

(** What comes back from the wire for a request: status line, status code
    and body. *)
Record wire := { wireStatus : string; wireStatusCode : Z; wireBody : string }.

End http.

(** ** The data model of package cfdns *)

Definition defaultAPIBase : string := "https://api.cloudflare.com/client/v4".

(** A [DNSRecord] contains information about a single DNS Record.  [Data]
    is an [interface{}]: [None] is the nil interface, [Some d] holds a
    dynamically typed value [d : Any]. *)
Module DNSRecord.
Section fields.
Context {Any : Type}.
Record t := mk {
  Name : string;
  Type' : string;
  Content : string;
  ID : string;
  TTL : Z;
  Proxiable : bool;
  Proxied : bool;
  Locked : bool;
  ZoneID : string;
  ZoneName : string;
  Created : time.Time;
  Modified : time.Time;
  Data : option Any
}.

(** The zero value [DNSRecord{}]. *)
Definition zero : t :=
  mk EmptyString EmptyString EmptyString EmptyString 0 false false false
     EmptyString EmptyString time.zero time.zero None.

(** [func (r DNSRecord) String() string] *)
Definition String (r : t) : string :=
  Name r +:+ " " +:+ Type' r +:+ " " +:+ Content r.
End fields.
Arguments t : clear implicits.
End DNSRecord.

(** A [Zone]; a nil slice and an empty slice are both []. *)
Module Zone.
Record t := mk {
  ID : string;
  Name : string;
  DevelopmentMode : Z;
  OriginalRegistrar : string;
  OriginalDNSHost : string;
  OriginalNameServers : list string;
  Created : time.Time;
  Modified : time.Time;
  NameServers : list string;
  Status : string;
  Paused : bool;
  Type' : string;
  Checked : time.Time
}.

(** The zero value [Zone{}]. *)
Definition zero : t :=
  mk EmptyString EmptyString 0 EmptyString EmptyString [] time.zero time.zero
     [] EmptyString false EmptyString time.zero.
End Zone.

(** A [Client] is used to communicate with the Cloudflare service. *)
Module Client.
Record t := mk {
  apiBase : string;
  authEmail : string;
  authKey : string
}.
End Client.

(** What a program running this package can observe and change: the
    [Client] the methods are called on, and three logs (oldest entry
    first): the requests handed to [http.DefaultClient.Do], the handles of
    the response bodies that were opened, and the handles on which [Close]
    was called. *)
Record State := {
  client : Client.t;
  sent : list http.Request.t;
  opened : list nat;
  closed : list nat
}.

(** Computations that read and change the [State]. *)
Definition M (A : Type) : Type := State -> A * State.

#[export] Instance M_ret : MRet M := fun _ a st => (a, st).

#[export] Instance M_bind : MBind M := fun _ _ k m st =>
  let '(a, st') := m st in k a st'.

(** [defer cleanup] in a function whose remaining body is [body]: [cleanup]
    runs when the function returns, whatever it returns. *)
Definition defer {A} (cleanup : M unit) (body : M A) : M A :=
  a ← body; _ ← cleanup; mret a.

(** ** Test doubles *)

(** A network that answers every request with the same status and body. *)
Definition answering (status : string) (code : Z) (body : string)
  : list http.Request.t -> http.Request.t -> Result http.wire :=
  fun _ _ => ok {| http.wireStatus := status; http.wireStatusCode := code;
                   http.wireBody := body |}.

(** A network that is down. *)
Definition unreachable : list http.Request.t -> http.Request.t -> Result http.wire :=
  fun _ _ => fail (transportError "dial tcp: connection refused").

(** A [url.Parse] that accepts every URL, and one that rejects the URLs
    with a space in them. *)
Definition anyURL : string -> bool := fun _ => true.
Definition noSpaceURL : string -> bool := fun u => negb (contains u " ").

(** A [Data] that only ever holds channels, which [json.Marshal] refuses. *)
Inductive chanOnly := aChan.
Definition chanMarshal : chanOnly -> Result string :=
  fun _ => fail (jsonErr UnsupportedError).
Definition chanUnmarshal : json.Value -> Result chanOnly :=
  fun _ => fail (jsonErr UnmarshalTypeError).

(** A [time.Parse] that knows no timestamp. *)
Definition noTime : string -> option time.Time := fun _ => None.

(** A [time.Parse] that knows the zero time only. *)
Definition zeroTimeOnly : string -> option time.Time :=
  fun s => if String.eqb s "0001-01-01T00:00:00Z" then Some time.zero else None.

(** A record as the service lists it, one that the service listed without
    its identifiers, and one with a channel in [Data]. *)
Definition recordR1 : DNSRecord.t chanOnly :=
  DNSRecord.mk "www.example.com" "A" "192.0.2.1" "r1" 300 false false false
    "z1" "example.com" time.zero time.zero None.


Definition recordChan : DNSRecord.t chanOnly :=
  DNSRecord.mk "www.example.com" "A" "192.0.2.1" "r1" 300 false false false
    "z1" "example.com" time.zero time.zero (Some aChan).

(** The zone [z1] named [example.com]. *)
Definition zoneZ1 : Zone.t :=
  Zone.mk "z1" "example.com" 0 EmptyString EmptyString [] time.zero time.zero
    [] EmptyString false EmptyString time.zero.

(** A zone named [example.com] that was listed without its identifier. *)
Definition zoneNoID : Zone.t :=
  Zone.mk EmptyString "example.com" 0 EmptyString EmptyString [] time.zero time.zero
    [] EmptyString false EmptyString time.zero.

(** ** The package *)

Section cfdns.

(** The dynamic type of the values a caller may put in [DNSRecord.Data],
    and what [json.Marshal] makes of one of them. *)
Variable Any : Type.
Variable Any_Marshal : Any -> Result string.

(** What the decoder stores into an [interface{}] for a JSON value other
    than [null]. *)
Variable Any_Unmarshal : json.Value -> Result Any.

(** [time.Parse(time.RFC3339, s)], as [Time.UnmarshalJSON] uses it. *)
Variable time_Parse : string -> option time.Time.

(** Whether [url.Parse] accepts a raw URL. *)
Variable url_Parse_ok : string -> bool.

(** The network behind [http.DefaultClient]: what comes back for a request,
    given the requests made before it, or the transport's error. *)
Variable RoundTrip : list http.Request.t -> http.Request.t -> Result http.wire.

Abbreviation DNSRecord := (DNSRecord.t Any).
Abbreviation Zone := Zone.t.
Abbreviation Client := Client.t.

(** *** encoding/json applied to the package's types *)

(** Storing a JSON value into a [time.Time] holding [old], through
    [Time.UnmarshalJSON]: [null] is a no-op, a string is parsed, anything
    else is an error.  [time_Parse] is given the text of the string; Go
    gives it the literal as written, so the two agree on the timestamps
    written without a JSON escape (as the encoder writes them), and a
    timestamp written with one, which Go refuses, is not modelled. *)
Definition decodeTime (old : time.Time) (v : json.Value) : Result time.Time :=
  match v with
  | json.Null => ok old
  | json.Str s =>
    match time_Parse s with
    | Some t => ok t
    | None => fail (jsonErr UnmarshalerError)
    end
  | _ => fail (jsonErr UnmarshalerError)
  end.

(** Storing a JSON value into an [interface{}]. *)
Definition decodeAny (v : json.Value) : Result (option Any) :=
  match v with
  | json.Null => ok None
  | _ => d ← Any_Unmarshal v; ok (Some d)
  end.

(** [json.Marshal(r)] for [r : DNSRecord], field by field in the order of
    the struct.  [omitempty] drops an empty string, a zero [int] and a nil
    interface; it has no effect on [Created] and [Modified], whose type
    [time.Time] is a struct and is never empty. *)
Definition Marshal_DNSRecord (r : DNSRecord) : Result string :=
  created ← time.MarshalJSON (DNSRecord.Created r);
  modified ← time.MarshalJSON (DNSRecord.Modified r);
  data ← match DNSRecord.Data r with
         | None => ok []
         | Some d => enc ← Any_Marshal d; ok [json.member "data" enc]
         end;
  ok (json.encodeStruct (
    [json.member "name" (json.appendString (DNSRecord.Name r));
     json.member "type" (json.appendString (DNSRecord.Type' r));
     json.member "content" (json.appendString (DNSRecord.Content r))]
    ++ json.omitemptyString "id" (DNSRecord.ID r)
    ++ json.omitemptyInt "ttl" (DNSRecord.TTL r)
    ++ [json.member "proxiable" (json.encodeBool (DNSRecord.Proxiable r));
        json.member "proxied" (json.encodeBool (DNSRecord.Proxied r));
        json.member "locked" (json.encodeBool (DNSRecord.Locked r))]
    ++ json.omitemptyString "zone_id" (DNSRecord.ZoneID r)
    ++ json.omitemptyString "zone_name" (DNSRecord.ZoneName r)
    ++ [json.member "created_on" created;
        json.member "modified_on" modified]
    ++ data)).

(** The field of a [DNSRecord] that an object key selects, by the names in
    the struct tags, and the value stored into it. *)
Definition DNSRecord_field (r : DNSRecord) (key : string) (v : json.Value) : Result DNSRecord :=
  if json.fieldMatch "name" key then
    x ← json.decodeString (DNSRecord.Name r) v;
    ok (DNSRecord.mk x (DNSRecord.Type' r) (DNSRecord.Content r) (DNSRecord.ID r)
          (DNSRecord.TTL r) (DNSRecord.Proxiable r) (DNSRecord.Proxied r)
          (DNSRecord.Locked r) (DNSRecord.ZoneID r) (DNSRecord.ZoneName r)
          (DNSRecord.Created r) (DNSRecord.Modified r) (DNSRecord.Data r))
  else if json.fieldMatch "type" key then
    x ← json.decodeString (DNSRecord.Type' r) v;
    ok (DNSRecord.mk (DNSRecord.Name r) x (DNSRecord.Content r) (DNSRecord.ID r)
          (DNSRecord.TTL r) (DNSRecord.Proxiable r) (DNSRecord.Proxied r)
          (DNSRecord.Locked r) (DNSRecord.ZoneID r) (DNSRecord.ZoneName r)
          (DNSRecord.Created r) (DNSRecord.Modified r) (DNSRecord.Data r))
  else if json.fieldMatch "content" key then
    x ← json.decodeString (DNSRecord.Content r) v;
    ok (DNSRecord.mk (DNSRecord.Name r) (DNSRecord.Type' r) x (DNSRecord.ID r)
          (DNSRecord.TTL r) (DNSRecord.Proxiable r) (DNSRecord.Proxied r)
          (DNSRecord.Locked r) (DNSRecord.ZoneID r) (DNSRecord.ZoneName r)
          (DNSRecord.Created r) (DNSRecord.Modified r) (DNSRecord.Data r))
  else if json.fieldMatch "id" key then
    x ← json.decodeString (DNSRecord.ID r) v;
    ok (DNSRecord.mk (DNSRecord.Name r) (DNSRecord.Type' r) (DNSRecord.Content r) x
          (DNSRecord.TTL r) (DNSRecord.Proxiable r) (DNSRecord.Proxied r)
          (DNSRecord.Locked r) (DNSRecord.ZoneID r) (DNSRecord.ZoneName r)
          (DNSRecord.Created r) (DNSRecord.Modified r) (DNSRecord.Data r))
  else if json.fieldMatch "ttl" key then
    x ← json.decodeInt (DNSRecord.TTL r) v;
    ok (DNSRecord.mk (DNSRecord.Name r) (DNSRecord.Type' r) (DNSRecord.Content r)
          (DNSRecord.ID r) x (DNSRecord.Proxiable r) (DNSRecord.Proxied r)
          (DNSRecord.Locked r) (DNSRecord.ZoneID r) (DNSRecord.ZoneName r)
          (DNSRecord.Created r) (DNSRecord.Modified r) (DNSRecord.Data r))
  else if json.fieldMatch "proxiable" key then
    x ← json.decodeBool (DNSRecord.Proxiable r) v;
    ok (DNSRecord.mk (DNSRecord.Name r) (DNSRecord.Type' r) (DNSRecord.Content r)
          (DNSRecord.ID r) (DNSRecord.TTL r) x (DNSRecord.Proxied r) (DNSRecord.Locked r)
          (DNSRecord.ZoneID r) (DNSRecord.ZoneName r) (DNSRecord.Created r)
          (DNSRecord.Modified r) (DNSRecord.Data r))
  else if json.fieldMatch "proxied" key then
    x ← json.decodeBool (DNSRecord.Proxied r) v;
    ok (DNSRecord.mk (DNSRecord.Name r) (DNSRecord.Type' r) (DNSRecord.Content r)
          (DNSRecord.ID r) (DNSRecord.TTL r) (DNSRecord.Proxiable r) x (DNSRecord.Locked
          r) (DNSRecord.ZoneID r) (DNSRecord.ZoneName r) (DNSRecord.Created r)
          (DNSRecord.Modified r) (DNSRecord.Data r))
  else if json.fieldMatch "locked" key then
    x ← json.decodeBool (DNSRecord.Locked r) v;
    ok (DNSRecord.mk (DNSRecord.Name r) (DNSRecord.Type' r) (DNSRecord.Content r)
          (DNSRecord.ID r) (DNSRecord.TTL r) (DNSRecord.Proxiable r) (DNSRecord.Proxied r)
          x (DNSRecord.ZoneID r) (DNSRecord.ZoneName r) (DNSRecord.Created r)
          (DNSRecord.Modified r) (DNSRecord.Data r))
  else if json.fieldMatch "zone_id" key then
    x ← json.decodeString (DNSRecord.ZoneID r) v;
    ok (DNSRecord.mk (DNSRecord.Name r) (DNSRecord.Type' r) (DNSRecord.Content r)
          (DNSRecord.ID r) (DNSRecord.TTL r) (DNSRecord.Proxiable r) (DNSRecord.Proxied r)
          (DNSRecord.Locked r) x (DNSRecord.ZoneName r) (DNSRecord.Created r)
          (DNSRecord.Modified r) (DNSRecord.Data r))
  else if json.fieldMatch "zone_name" key then
    x ← json.decodeString (DNSRecord.ZoneName r) v;
    ok (DNSRecord.mk (DNSRecord.Name r) (DNSRecord.Type' r) (DNSRecord.Content r)
          (DNSRecord.ID r) (DNSRecord.TTL r) (DNSRecord.Proxiable r) (DNSRecord.Proxied r)
          (DNSRecord.Locked r) (DNSRecord.ZoneID r) x (DNSRecord.Created r)
          (DNSRecord.Modified r) (DNSRecord.Data r))
  else if json.fieldMatch "created_on" key then
    x ← decodeTime (DNSRecord.Created r) v;
    ok (DNSRecord.mk (DNSRecord.Name r) (DNSRecord.Type' r) (DNSRecord.Content r)
          (DNSRecord.ID r) (DNSRecord.TTL r) (DNSRecord.Proxiable r) (DNSRecord.Proxied r)
          (DNSRecord.Locked r) (DNSRecord.ZoneID r) (DNSRecord.ZoneName r) x
          (DNSRecord.Modified r) (DNSRecord.Data r))
  else if json.fieldMatch "modified_on" key then
    x ← decodeTime (DNSRecord.Modified r) v;
    ok (DNSRecord.mk (DNSRecord.Name r) (DNSRecord.Type' r) (DNSRecord.Content r)
          (DNSRecord.ID r) (DNSRecord.TTL r) (DNSRecord.Proxiable r) (DNSRecord.Proxied r)
          (DNSRecord.Locked r) (DNSRecord.ZoneID r) (DNSRecord.ZoneName r)
          (DNSRecord.Created r) x (DNSRecord.Data r))
  else if json.fieldMatch "data" key then
    x ← decodeAny v;
    ok (DNSRecord.mk (DNSRecord.Name r) (DNSRecord.Type' r) (DNSRecord.Content r)
          (DNSRecord.ID r) (DNSRecord.TTL r) (DNSRecord.Proxiable r) (DNSRecord.Proxied r)
          (DNSRecord.Locked r) (DNSRecord.ZoneID r) (DNSRecord.ZoneName r)
          (DNSRecord.Created r) (DNSRecord.Modified r) x)
  else ok r.

(** [json.Unmarshal] into a [DNSRecord] holding [old]. *)
Definition decodeDNSRecord (old : DNSRecord) (v : json.Value) : Result DNSRecord :=
  json.decodeStruct DNSRecord_field old v.

(** The same for a [Zone]. *)
Definition Zone_field (r : Zone) (key : string) (v : json.Value) : Result Zone :=
  if json.fieldMatch "id" key then
    x ← json.decodeString (Zone.ID r) v;
    ok (Zone.mk x (Zone.Name r) (Zone.DevelopmentMode r) (Zone.OriginalRegistrar r)
          (Zone.OriginalDNSHost r) (Zone.OriginalNameServers r) (Zone.Created r)
          (Zone.Modified r) (Zone.NameServers r) (Zone.Status r) (Zone.Paused r)
          (Zone.Type' r) (Zone.Checked r))
  else if json.fieldMatch "name" key then
    x ← json.decodeString (Zone.Name r) v;
    ok (Zone.mk (Zone.ID r) x (Zone.DevelopmentMode r) (Zone.OriginalRegistrar r)
          (Zone.OriginalDNSHost r) (Zone.OriginalNameServers r) (Zone.Created r)
          (Zone.Modified r) (Zone.NameServers r) (Zone.Status r) (Zone.Paused r)
          (Zone.Type' r) (Zone.Checked r))
  else if json.fieldMatch "development_mode" key then
    x ← json.decodeInt (Zone.DevelopmentMode r) v;
    ok (Zone.mk (Zone.ID r) (Zone.Name r) x (Zone.OriginalRegistrar r)
          (Zone.OriginalDNSHost r) (Zone.OriginalNameServers r) (Zone.Created r)
          (Zone.Modified r) (Zone.NameServers r) (Zone.Status r) (Zone.Paused r)
          (Zone.Type' r) (Zone.Checked r))
  else if json.fieldMatch "original_registrar" key then
    x ← json.decodeString (Zone.OriginalRegistrar r) v;
    ok (Zone.mk (Zone.ID r) (Zone.Name r) (Zone.DevelopmentMode r) x
          (Zone.OriginalDNSHost r) (Zone.OriginalNameServers r) (Zone.Created r)
          (Zone.Modified r) (Zone.NameServers r) (Zone.Status r) (Zone.Paused r)
          (Zone.Type' r) (Zone.Checked r))
  else if json.fieldMatch "original_dnshost" key then
    x ← json.decodeString (Zone.OriginalDNSHost r) v;
    ok (Zone.mk (Zone.ID r) (Zone.Name r) (Zone.DevelopmentMode r)
          (Zone.OriginalRegistrar r) x (Zone.OriginalNameServers r) (Zone.Created r)
          (Zone.Modified r) (Zone.NameServers r) (Zone.Status r) (Zone.Paused r)
          (Zone.Type' r) (Zone.Checked r))
  else if json.fieldMatch "original_name_servers" key then
    x ← json.decodeSlice (json.decodeString EmptyString) (Zone.OriginalNameServers r) v;
    ok (Zone.mk (Zone.ID r) (Zone.Name r) (Zone.DevelopmentMode r)
          (Zone.OriginalRegistrar r) (Zone.OriginalDNSHost r) x (Zone.Created r)
          (Zone.Modified r) (Zone.NameServers r) (Zone.Status r) (Zone.Paused r)
          (Zone.Type' r) (Zone.Checked r))
  else if json.fieldMatch "created_on" key then
    x ← decodeTime (Zone.Created r) v;
    ok (Zone.mk (Zone.ID r) (Zone.Name r) (Zone.DevelopmentMode r)
          (Zone.OriginalRegistrar r) (Zone.OriginalDNSHost r) (Zone.OriginalNameServers r)
          x (Zone.Modified r) (Zone.NameServers r) (Zone.Status r) (Zone.Paused r)
          (Zone.Type' r) (Zone.Checked r))
  else if json.fieldMatch "modified_on" key then
    x ← decodeTime (Zone.Modified r) v;
    ok (Zone.mk (Zone.ID r) (Zone.Name r) (Zone.DevelopmentMode r)
          (Zone.OriginalRegistrar r) (Zone.OriginalDNSHost r) (Zone.OriginalNameServers r)
          (Zone.Created r) x (Zone.NameServers r) (Zone.Status r) (Zone.Paused r)
          (Zone.Type' r) (Zone.Checked r))
  else if json.fieldMatch "name_servers" key then
    x ← json.decodeSlice (json.decodeString EmptyString) (Zone.NameServers r) v;
    ok (Zone.mk (Zone.ID r) (Zone.Name r) (Zone.DevelopmentMode r)
          (Zone.OriginalRegistrar r) (Zone.OriginalDNSHost r) (Zone.OriginalNameServers r)
          (Zone.Created r) (Zone.Modified r) x (Zone.Status r) (Zone.Paused r) (Zone.Type'
          r) (Zone.Checked r))
  else if json.fieldMatch "status" key then
    x ← json.decodeString (Zone.Status r) v;
    ok (Zone.mk (Zone.ID r) (Zone.Name r) (Zone.DevelopmentMode r)
          (Zone.OriginalRegistrar r) (Zone.OriginalDNSHost r) (Zone.OriginalNameServers r)
          (Zone.Created r) (Zone.Modified r) (Zone.NameServers r) x (Zone.Paused r)
          (Zone.Type' r) (Zone.Checked r))
  else if json.fieldMatch "paused" key then
    x ← json.decodeBool (Zone.Paused r) v;
    ok (Zone.mk (Zone.ID r) (Zone.Name r) (Zone.DevelopmentMode r)
          (Zone.OriginalRegistrar r) (Zone.OriginalDNSHost r) (Zone.OriginalNameServers r)
          (Zone.Created r) (Zone.Modified r) (Zone.NameServers r) (Zone.Status r) x
          (Zone.Type' r) (Zone.Checked r))
  else if json.fieldMatch "type" key then
    x ← json.decodeString (Zone.Type' r) v;
    ok (Zone.mk (Zone.ID r) (Zone.Name r) (Zone.DevelopmentMode r)
          (Zone.OriginalRegistrar r) (Zone.OriginalDNSHost r) (Zone.OriginalNameServers r)
          (Zone.Created r) (Zone.Modified r) (Zone.NameServers r) (Zone.Status r)
          (Zone.Paused r) x (Zone.Checked r))
  else if json.fieldMatch "checked_on" key then
    x ← decodeTime (Zone.Checked r) v;
    ok (Zone.mk (Zone.ID r) (Zone.Name r) (Zone.DevelopmentMode r)
          (Zone.OriginalRegistrar r) (Zone.OriginalDNSHost r) (Zone.OriginalNameServers r)
          (Zone.Created r) (Zone.Modified r) (Zone.NameServers r) (Zone.Status r)
          (Zone.Paused r) (Zone.Type' r) x)
  else ok r.

Definition decodeZone (old : Zone) (v : json.Value) : Result Zone :=
  json.decodeStruct Zone_field old v.

(** [type cfDNSResult struct { Result []DNSRecord }] and
    [type cfZoneResult struct { Result []Zone }]: a struct is given by its
    one field, which has no tag and is selected by the key [Result] in any
    letter case. *)
Definition cfDNSResult_field (res : list DNSRecord) (key : string) (v : json.Value)
  : Result (list DNSRecord) :=
  if json.fieldMatch "Result" key
  then json.decodeSlice (decodeDNSRecord DNSRecord.zero) res v
  else ok res.

Definition cfZoneResult_field (res : list Zone) (key : string) (v : json.Value)
  : Result (list Zone) :=
  if json.fieldMatch "Result" key
  then json.decodeSlice (decodeZone Zone.zero) res v
  else ok res.

(** [var res cfDNSResult; err = json.NewDecoder(body).Decode(&res)]: the
    first JSON value of [body] is read and stored into the zero [res];
    the result is [res.Result]. *)
Definition Decode_cfDNSResult (body : string) : Result (list DNSRecord) :=
  v ← json.readValue body; json.decodeStruct cfDNSResult_field [] v.

Definition Decode_cfZoneResult (body : string) : Result (list Zone) :=
  v ← json.readValue body; json.decodeStruct cfZoneResult_field [] v.

(** *** net/http in the state *)

(** [http.NewRequest(method, url, body)] for one of the methods GET, POST,
    PUT, DELETE: fails exactly when the URL does not parse. *)
Definition NewRequest (method url : string) (body : option string)
  : Result http.Request.t :=
  if url_Parse_ok url
  then ok (http.Request.mk method url ∅ body)
  else fail (urlError url).

(** [req.Header.Set(key, value)] *)
Definition Request_Header_Set (key value : string) (req : http.Request.t)
  : http.Request.t :=
  http.Request.mk (http.Request.Method req) (http.Request.URL req)
    (http.Header_Set key value (http.Request.Header req)) (http.Request.Body req).

(** [http.DefaultClient.Do(req)]: the request goes out; either the
    transport fails, or a response comes back whose body is open.  The
    handle of the body is the number of the request. *)
Definition Do (req : http.Request.t) : M (Result http.Response.t) :=
  fun st =>
    let h := length (sent st) in
    match RoundTrip (sent st) req with
    | fail e =>
      (fail e, {| client := client st; sent := sent st ++ [req];
                  opened := opened st; closed := closed st |})
    | ok w =>
      (ok (http.Response.mk (http.wireStatus w) (http.wireStatusCode w)
             {| http.handle := h; http.content := http.wireBody w |}),
       {| client := client st; sent := sent st ++ [req];
          opened := opened st ++ [h]; closed := closed st |})
    end.

(** [body.Close()] *)
Definition Close (body : http.ReadCloser) : M unit :=
  fun st =>
    (tt, {| client := client st; sent := sent st; opened := opened st;
            closed := closed st ++ [http.handle body] |}).

(** Reading the receiver [c]. *)
Definition self : M Client := fun st => (client st, st).

(** *** The functions of cfdns.go *)

(** [NewClient] returns a new, initialized Client. *)
Definition NewClient (authEmail authKey : string) : Client :=
  {| Client.apiBase := defaultAPIBase;
     Client.authEmail := authEmail;
     Client.authKey := authKey |}.

(** The state of a program that has just built its client and has not
    used the network yet. *)
Definition freshState (authEmail authKey : string) : State :=
  {| client := NewClient authEmail authKey; sent := []; opened := []; closed := [] |}.

(** [func jsonReader(obj interface{}) (io.Reader, error)], at the one type
    it is called with; the reader is given by the bytes it will yield. *)
Definition jsonReader (obj : DNSRecord) : Result string :=
  match Marshal_DNSRecord obj with
  | fail err => fail err
  | ok bs => ok bs
  end.

(** [func (c *Client) doRequest(method, url string, body io.Reader)] *)
Definition doRequest (method url : string) (body : option string)
  : M (Result http.Response.t) :=
  c ← self;
  match NewRequest method (Client.apiBase c +:+ url) body with
  | fail err => mret (fail err)
  | ok req =>
    let req := Request_Header_Set "X-Auth-Email" (Client.authEmail c) req in
    let req := Request_Header_Set "X-Auth-Key" (Client.authKey c) req in
    r ← Do req;
    match r with
    | fail err => mret (fail err)
    | ok resp => mret (ok resp)
    end
  end.

(** [ListZones] returns a list of all zones accessable by the client, or
    an error. *)
Definition ListZones : M (Result (list Zone)) :=
  r ← doRequest "GET" "/zones?per_page=1000" None;
  match r with
  | fail err => mret (fail err)
  | ok resp =>
    defer (Close (http.Response.Body resp))
      (match Decode_cfZoneResult (http.content (http.Response.Body resp)) with
       | fail err => mret (fail err)
       | ok res => mret (ok res)
       end)
  end.

(** [ListDNSRecords] returns a list of all DNS records under the given
    zone, or an error. *)
Definition ListDNSRecords (zoneID : string) : M (Result (list DNSRecord)) :=
  r ← doRequest "GET" ("/zones/" +:+ zoneID +:+ "/dns_records?per_page=1000") None;
  match r with
  | fail err => mret (fail err)
  | ok resp =>
    defer (Close (http.Response.Body resp))
      (match Decode_cfDNSResult (http.content (http.Response.Body resp)) with
       | fail err => mret (fail err)
       | ok res => mret (ok res)
       end)
  end.

(** [CreateDNSRecord] creates a new DNS record in the given zone, with the
    specified name, type and content.  The error of [jsonReader] is
    dropped ([body, _ := jsonReader(...)]); on an error the body would be
    the nil reader.  [errors.New(resp.Status)] is [errorString]. *)
Definition CreateDNSRecord (zoneID name rectype content : string) : M (option error) :=
  let body :=
    match jsonReader (DNSRecord.mk name rectype content EmptyString 0 false false false
                        EmptyString EmptyString time.zero time.zero None) with
    | ok b => Some b
    | fail _ => None
    end in
  r ← doRequest "POST" ("/zones/" +:+ zoneID +:+ "/dns_records") body;
  match r with
  | fail err => mret (Some err)
  | ok resp =>
    _ ← Close (http.Response.Body resp);
    if negb (http.Response.StatusCode resp =? 200)
    then mret (Some (errorString (http.Response.Status resp)))
    else mret None
  end.

(** [UpdateDNSRecord] updates an existing record and returns nil, or an
    error. *)
Definition UpdateDNSRecord (rec : DNSRecord) : M (option error) :=
  match jsonReader rec with
  | fail err => mret (Some err)
  | ok body =>
    r ← doRequest "PUT"
          ("/zones/" +:+ DNSRecord.ZoneID rec +:+ "/dns_records/" +:+ DNSRecord.ID rec)
          (Some body);
    match r with
    | fail err => mret (Some err)
    | ok resp =>
      _ ← Close (http.Response.Body resp);
      if negb (http.Response.StatusCode resp =? 200)
      then mret (Some (errorString (http.Response.Status resp)))
      else mret None
    end
  end.

(** [DeleteDNSRecord] deletes an existing record and returns nil, or an
    error. *)
Definition DeleteDNSRecord (rec : DNSRecord) : M (option error) :=
  r ← doRequest "DELETE"
        ("/zones/" +:+ DNSRecord.ZoneID rec +:+ "/dns_records/" +:+ DNSRecord.ID rec)
        None;
  match r with
  | fail err => mret (Some err)
  | ok resp =>
    _ ← Close (http.Response.Body resp);
    if negb (http.Response.StatusCode resp =? 200)
    then mret (Some (errorString (http.Response.Status resp)))
    else mret None
  end.

(** *** The example of the package documentation *)

(** How [ExampleClient] ends: it returns, or it panics with an error. *)
Inductive Outcome :=
| returns
| panics (err : error).

(** The loop
    [for _, zone := range zones { if zone.Name == "example.com" { exampleZone = zone; break } }]
    started with [exampleZone] holding its initial value. *)
Fixpoint findExampleZone (zones : list Zone) (exampleZone : Zone) : Zone :=
  match zones with
  | [] => exampleZone
  | zone :: rest =>
    if String.eqb (Zone.Name zone) "example.com" then zone
    else findExampleZone rest exampleZone
  end.

(** [client := cfdns.NewClient(...)]: the calls that follow are made on
    the new client. *)
Definition useClient (c : Client) : M unit :=
  fun st => (tt, {| client := c; sent := sent st; opened := opened st;
                    closed := closed st |}).

(** [func ExampleClient()] *)
Definition ExampleClient : M Outcome :=
  _ ← useClient (NewClient "test@example.com" "dc771129ae047c934adba2d1dc4fe184");
  r ← ListZones;
  match r with
  | fail err => mret (panics err)
  | ok zones =>
    let exampleZone := findExampleZone zones Zone.zero in
    if negb (String.eqb (Zone.ID exampleZone) EmptyString) then
      e ← CreateDNSRecord (Zone.ID exampleZone) "test.example.com" "A" "192.168.0.2";
      match e with
      | Some err => mret (panics err)
      | None => mret returns
      end
    else mret returns
  end.

(** *** Calls *)

(** A call of one of the five operations, with its arguments. *)
Inductive Call :=
| callListZones
| callListDNSRecords (zoneID : string)
| callCreateDNSRecord (zoneID name rectype content : string)
| callUpdateDNSRecord (rec : DNSRecord)
| callDeleteDNSRecord (rec : DNSRecord).

(** What a call returned. *)
Inductive Returned :=
| zones (r : Result (list Zone))
| records (r : Result (list DNSRecord))
| status (err : option error).

Definition call (c : Call) : M Returned :=
  match c with
  | callListZones => r ← ListZones; mret (zones r)
  | callListDNSRecords zoneID => r ← ListDNSRecords zoneID; mret (records r)
  | callCreateDNSRecord zoneID name rectype content =>
    e ← CreateDNSRecord zoneID name rectype content; mret (status e)
  | callUpdateDNSRecord rec => e ← UpdateDNSRecord rec; mret (status e)
  | callDeleteDNSRecord rec => e ← DeleteDNSRecord rec; mret (status e)
  end.

(** The [error] a call returned, [None] for nil. *)
Definition returnedError (r : Returned) : option error :=
  match r with
  | zones (ok _) | records (ok _) => None
  | zones (fail e) | records (fail e) => Some e
  | status e => e
  end.

(** The create, update and delete calls. *)
Definition mutating (c : Call) : bool :=
  match c with
  | callListZones | callListDNSRecords _ => false
  | _ => true
  end.

(** The requests a call hands to [http.DefaultClient.Do], in order. *)
Definition issued (c : Call) (st : State) : list http.Request.t :=
  drop (length (sent st)) (sent (snd (call c st))).

(** The state after a sequence of calls. *)
Fixpoint exec (cs : list Call) (st : State) : State :=
  match cs with
  | [] => st
  | c :: cs' => exec cs' (snd (call c st))
  end.

(** The endpoints as the interface description lists them: the method and
    the path of each operation. *)
Definition method (c : Call) : string :=
  match c with
  | callListZones | callListDNSRecords _ => "GET"
  | callCreateDNSRecord _ _ _ _ => "POST"
  | callUpdateDNSRecord _ => "PUT"
  | callDeleteDNSRecord _ => "DELETE"
  end.

Definition endpoint (c : Call) : string :=
  match c with
  | callListZones => "/zones?per_page=1000"
  | callListDNSRecords zoneID => "/zones/" +:+ zoneID +:+ "/dns_records?per_page=1000"
  | callCreateDNSRecord zoneID _ _ _ => "/zones/" +:+ zoneID +:+ "/dns_records"
  | callUpdateDNSRecord rec | callDeleteDNSRecord rec =>
    "/zones/" +:+ DNSRecord.ZoneID rec +:+ "/dns_records/" +:+ DNSRecord.ID rec
  end.

(** Whether the request of a call can be built: its payload, if it has
    one that is checked, serializes, and its URL parses. *)
Definition buildable (c : Call) (st : State) : bool :=
  match c with
  | callUpdateDNSRecord rec =>
    match jsonReader rec with
    | ok _ => true
    | fail _ => false
    end
  | _ => true
  end && url_Parse_ok (Client.apiBase (client st) +:+ endpoint c).

(** The record [CreateDNSRecord] serializes. *)
Definition newRecord (name rectype content : string) : DNSRecord :=
  DNSRecord.mk name rectype content EmptyString 0 false false false
    EmptyString EmptyString time.zero time.zero None.

(** The request [doRequest] builds for client [c]. *)
Definition requestOf (c : Client) (method url : string) (body : option string)
  : http.Request.t :=
  Request_Header_Set "X-Auth-Key" (Client.authKey c)
    (Request_Header_Set "X-Auth-Email" (Client.authEmail c)
       (http.Request.mk method (Client.apiBase c +:+ url) ∅ body)).

(** The state once [req] has gone out, the bodies [hs] having been opened
    and the bodies [cs] closed. *)
Definition afterSending (st : State) (req : http.Request.t) (hs cs : list nat) : State :=
  {| client := client st; sent := sent st ++ [req];
     opened := opened st ++ hs; closed := closed st ++ cs |}.

(** The body a call puts in its request. *)
Definition payload (c : Call) : option string :=
  match c with
  | callCreateDNSRecord _ name rectype content =>
    match jsonReader (newRecord name rectype content) with
    | ok b => Some b
    | fail _ => None
    end
  | callUpdateDNSRecord rec =>
    match jsonReader rec with
    | ok b => Some b
    | fail _ => None
    end
  | _ => None
  end.

(** What a call returns when no request goes out. *)
Definition notSent (c : Call) (st : State) : Returned :=
  let e :=
    match c with
    | callUpdateDNSRecord rec =>
      match jsonReader rec with
      | fail err => err
      | ok _ => urlError (Client.apiBase (client st) +:+ endpoint c)
      end
    | _ => urlError (Client.apiBase (client st) +:+ endpoint c)
    end in
  match c with
  | callListZones => zones (fail e)
  | callListDNSRecords _ => records (fail e)
  | _ => status (Some e)
  end.

(** What a call returns when the transport fails with [e]. *)
Definition notAnswered (c : Call) (e : error) : Returned :=
  match c with
  | callListZones => zones (fail e)
  | callListDNSRecords _ => records (fail e)
  | _ => status (Some e)
  end.

(** What a call returns for the response [w]. *)
Definition answeredWith (c : Call) (w : http.wire) : Returned :=
  match c with
  | callListZones => zones (Decode_cfZoneResult (http.wireBody w))
  | callListDNSRecords _ => records (Decode_cfDNSResult (http.wireBody w))
  | _ =>
    status (if http.wireStatusCode w =? 200 then None
            else Some (errorString (http.wireStatus w)))
  end.

(** ** Properties *)

(** *** unicode/utf8 *)

Lemma byte_chr_range c : 0 <= byte c < 256.
Proof.
  unfold byte. pose proof (N_ascii_bounded c). lia.
Qed.

Lemma chr_byte c : chr (byte c) = c.
Proof. unfold chr, byte. rewrite N2Z.id. apply ascii_N_embedding. Qed.

(** A bitwise or of two numbers with no bit in common is their sum. *)
Lemma lor_add k b n :
  0 <= n -> 0 <= b < 2 ^ n -> Z.lor (k * 2 ^ n) b = k * 2 ^ n + b.
Proof.
  intros Hn Hb.
  assert (H : Z.land (k * 2 ^ n) b = 0).
  { apply Z.bits_inj'. intros m Hm. rewrite Z.land_spec, Z.bits_0.
    destruct (Z.ltb_spec m n) as [Hlt|Hge].
    - rewrite Z.mul_pow2_bits_low by lia. reflexivity.
    - assert (Z.testbit b m = false) as ->; [|apply andb_false_r].
      destruct (Z.eq_dec b 0) as [->|Hnz]; [apply Z.bits_0|].
      apply Z.bits_above_log2; [lia|].
      assert (Z.log2 b < n) by (apply Z.log2_lt_pow2; lia). lia. }
  rewrite <- (Z.lxor_lor _ _ H). symmetry. apply Z.add_nocarry_lxor, H.
Qed.

Lemma land_low x n : 0 <= n -> Z.land x (2 ^ n - 1) = x mod 2 ^ n.
Proof.
  intros Hn. rewrite <- Z.land_ones by lia. f_equal.
  rewrite Z.ones_equiv. lia.
Qed.

(** The continuation byte [tx | byte(x)&maskx]. *)
Lemma continuation_byte x : Z.lor 128 (Z.land x 63) = 128 + x mod 64.
Proof.
  change 63 with (2 ^ 6 - 1). rewrite (land_low x 6) by lia. change (2 ^ 6) with 64.
  apply (lor_add 1 (x mod 64) 7); [lia|].
  pose proof (Z.mod_pos_bound x 64). change (2 ^ 7) with 128. lia.
Qed.

(** [EncodeRune] by arithmetic, range by range. *)
Lemma EncodeRune2 r :
  128 <= r <= 2047 ->
  utf8.EncodeRune r =
  String (chr (192 + r / 64)) (String (chr (128 + r mod 64)) EmptyString).
Proof.
  intros Hr. unfold utf8.EncodeRune. cbv zeta.
  assert (between 0 r 127 = false) as -> by (unfold between; lia).
  assert (between 0 r 2047 = true) as -> by (unfold between; lia).
  rewrite continuation_byte, (Z.shiftr_div_pow2 r 6) by lia. change (2 ^ 6) with 64.
  change (Z.lor 192 (r / 64)) with (Z.lor (3 * 2 ^ 6) (r / 64)).
  rewrite (lor_add 3 (r / 64) 6); [reflexivity|lia|].
  change (2 ^ 6) with 64. Z.to_euclidean_division_equations. lia.
Qed.

Lemma EncodeRune3 r :
  2048 <= r <= 65535 -> ~ (55296 <= r <= 57343) ->
  utf8.EncodeRune r =
  String (chr (224 + r / 4096))
    (String (chr (128 + (r / 64) mod 64)) (String (chr (128 + r mod 64)) EmptyString)).
Proof.
  intros Hr Hs. unfold utf8.EncodeRune. cbv zeta.
  assert (between 0 r 127 = false) as -> by (unfold between; lia).
  assert (between 0 r 2047 = false) as -> by (unfold between; lia).
  assert ((r <? 0) || (utf8.MaxRune <? r) || between 55296 r 57343 = false) as ->
    by (unfold between, utf8.MaxRune; lia).
  assert ((r <=? 65535) = true) as -> by lia.
  rewrite !continuation_byte, (Z.shiftr_div_pow2 r 6), (Z.shiftr_div_pow2 r 12) by lia.
  change (2 ^ 6) with 64. change (2 ^ 12) with 4096.
  change (Z.lor 224 (r / 4096)) with (Z.lor (7 * 2 ^ 5) (r / 4096)).
  rewrite (lor_add 7 (r / 4096) 5); [reflexivity|lia|].
  change (2 ^ 5) with 32. Z.to_euclidean_division_equations. lia.
Qed.

Lemma EncodeRune4 r :
  65536 <= r <= 1114111 ->
  utf8.EncodeRune r =
  String (chr (240 + r / 262144))
    (String (chr (128 + (r / 4096) mod 64))
       (String (chr (128 + (r / 64) mod 64)) (String (chr (128 + r mod 64)) EmptyString))).
Proof.
  intros Hr. unfold utf8.EncodeRune. cbv zeta.
  assert (between 0 r 127 = false) as -> by (unfold between; lia).
  assert (between 0 r 2047 = false) as -> by (unfold between; lia).
  assert ((r <? 0) || (utf8.MaxRune <? r) || between 55296 r 57343 = false) as ->
    by (unfold between, utf8.MaxRune; lia).
  assert ((r <=? 65535) = false) as -> by lia.
  rewrite !continuation_byte, (Z.shiftr_div_pow2 r 6), (Z.shiftr_div_pow2 r 12),
    (Z.shiftr_div_pow2 r 18) by lia.
  change (2 ^ 6) with 64. change (2 ^ 12) with 4096. change (2 ^ 18) with 262144.
  change (Z.lor 240 (r / 262144)) with (Z.lor (15 * 2 ^ 4) (r / 262144)).
  rewrite (lor_add 15 (r / 262144) 4); [reflexivity|lia|].
  change (2 ^ 4) with 16. Z.to_euclidean_division_equations. lia.
Qed.

(** The runes [DecodeRuneInString] computes, by arithmetic. *)
Lemma decoded2 s0 s1 :
  Z.lor (Z.shiftl (Z.land s0 31) 6) (Z.land s1 63) = s0 mod 32 * 64 + s1 mod 64.
Proof.
  change 31 with (2 ^ 5 - 1). change 63 with (2 ^ 6 - 1).
  rewrite !land_low, Z.shiftl_mul_pow2 by lia.
  rewrite lor_add by (try lia; apply Z.mod_pos_bound; lia). reflexivity.
Qed.

Lemma decoded3 s0 s1 s2 :
  Z.lor (Z.lor (Z.shiftl (Z.land s0 15) 12) (Z.shiftl (Z.land s1 63) 6)) (Z.land s2 63)
  = s0 mod 16 * 4096 + s1 mod 64 * 64 + s2 mod 64.
Proof.
  change 15 with (2 ^ 4 - 1). change 63 with (2 ^ 6 - 1).
  rewrite !land_low, !Z.shiftl_mul_pow2 by lia.
  pose proof (Z.mod_pos_bound s1 (2 ^ 6)). pose proof (Z.mod_pos_bound s2 (2 ^ 6)).
  rewrite (lor_add (s0 mod 2 ^ 4) (s1 mod 2 ^ 6 * 2 ^ 6) 12) by lia.
  replace (s0 mod 2 ^ 4 * 2 ^ 12 + s1 mod 2 ^ 6 * 2 ^ 6)
    with ((s0 mod 2 ^ 4 * 2 ^ 6 + s1 mod 2 ^ 6) * 2 ^ 6) by lia.
  rewrite lor_add by lia. change (2 ^ 4) with 16. change (2 ^ 6) with 64. lia.
Qed.

Lemma decoded4 s0 s1 s2 s3 :
  Z.lor (Z.lor (Z.lor (Z.shiftl (Z.land s0 7) 18) (Z.shiftl (Z.land s1 63) 12))
           (Z.shiftl (Z.land s2 63) 6)) (Z.land s3 63)
  = s0 mod 8 * 262144 + s1 mod 64 * 4096 + s2 mod 64 * 64 + s3 mod 64.
Proof.
  change 7 with (2 ^ 3 - 1). change 63 with (2 ^ 6 - 1).
  rewrite !land_low, !Z.shiftl_mul_pow2 by lia.
  pose proof (Z.mod_pos_bound s1 (2 ^ 6)). pose proof (Z.mod_pos_bound s2 (2 ^ 6)).
  pose proof (Z.mod_pos_bound s3 (2 ^ 6)).
  rewrite (lor_add (s0 mod 2 ^ 3) (s1 mod 2 ^ 6 * 2 ^ 12) 18) by lia.
  replace (s0 mod 2 ^ 3 * 2 ^ 18 + s1 mod 2 ^ 6 * 2 ^ 12)
    with ((s0 mod 2 ^ 3 * 2 ^ 6 + s1 mod 2 ^ 6) * 2 ^ 12) by lia.
  rewrite (lor_add _ (s2 mod 2 ^ 6 * 2 ^ 6) 12) by lia.
  replace ((s0 mod 2 ^ 3 * 2 ^ 6 + s1 mod 2 ^ 6) * 2 ^ 12 + s2 mod 2 ^ 6 * 2 ^ 6)
    with (((s0 mod 2 ^ 3 * 2 ^ 6 + s1 mod 2 ^ 6) * 2 ^ 6 + s2 mod 2 ^ 6) * 2 ^ 6) by lia.
  rewrite lor_add by lia. change (2 ^ 3) with 8. change (2 ^ 6) with 64. lia.
Qed.

Ltac same_byte c :=
  rewrite <- (chr_byte c) at 2; f_equal; Z.to_euclidean_division_equations; lia.

(** The encoding of the rune decoded from a well-formed sequence is the
    sequence. *)
Lemma encode_decoded2 c0 c1 :
  194 <= byte c0 <= 223 -> 128 <= byte c1 <= 191 ->
  utf8.EncodeRune (Z.lor (Z.shiftl (Z.land (byte c0) 31) 6) (Z.land (byte c1) 63))
  = String c0 (String c1 EmptyString).
Proof.
  intros H0 H1. rewrite decoded2.
  rewrite EncodeRune2 by (Z.to_euclidean_division_equations; lia).
  f_equal; [same_byte c0|]. f_equal. same_byte c1.
Qed.

Lemma encode_decoded3 c0 c1 c2 :
  (byte c0 = 224 /\ 160 <= byte c1 <= 191) \/
  ((225 <= byte c0 <= 236 \/ 238 <= byte c0 <= 239) /\ 128 <= byte c1 <= 191) \/
  (byte c0 = 237 /\ 128 <= byte c1 <= 159) ->
  128 <= byte c2 <= 191 ->
  utf8.EncodeRune
    (Z.lor (Z.lor (Z.shiftl (Z.land (byte c0) 15) 12) (Z.shiftl (Z.land (byte c1) 63) 6))
       (Z.land (byte c2) 63))
  = String c0 (String c1 (String c2 EmptyString)).
Proof.
  intros H01 H2. rewrite decoded3.
  rewrite EncodeRune3 by (Z.to_euclidean_division_equations; lia).
  f_equal; [same_byte c0|]. f_equal; [same_byte c1|]. f_equal. same_byte c2.
Qed.

Lemma encode_decoded4 c0 c1 c2 c3 :
  (byte c0 = 240 /\ 144 <= byte c1 <= 191) \/
  (241 <= byte c0 <= 243 /\ 128 <= byte c1 <= 191) \/
  (byte c0 = 244 /\ 128 <= byte c1 <= 143) ->
  128 <= byte c2 <= 191 -> 128 <= byte c3 <= 191 ->
  utf8.EncodeRune
    (Z.lor (Z.lor (Z.lor (Z.shiftl (Z.land (byte c0) 7) 18)
                     (Z.shiftl (Z.land (byte c1) 63) 12))
              (Z.shiftl (Z.land (byte c2) 63) 6)) (Z.land (byte c3) 63))
  = String c0 (String c1 (String c2 (String c3 EmptyString))).
Proof.
  intros H01 H2 H3. rewrite decoded4.
  rewrite EncodeRune4 by (Z.to_euclidean_division_equations; lia).
  f_equal; [same_byte c0|]. f_equal; [same_byte c1|]. f_equal; [same_byte c2|].
  f_equal. same_byte c3.
Qed.

Lemma first_AS b : utf8.first b = utf8.AS -> b < 128.
Proof.
  unfold utf8.first.
  repeat (match goal with |- context [if ?x then _ else _] => destruct x eqn:? end);
    try discriminate; lia.
Qed.

(** The lead bytes, with the size of their sequence and the range they
    accept for the second byte. *)
Lemma first_Lead b sz lo hi :
  utf8.first b = utf8.Lead sz lo hi ->
  (sz = 2%nat /\ lo = 128 /\ hi = 191 /\ 194 <= b <= 223) \/
  (sz = 3%nat /\
   ((lo = 160 /\ hi = 191 /\ b = 224) \/
    (lo = 128 /\ hi = 191 /\ (225 <= b <= 236 \/ 238 <= b <= 239)) \/
    (lo = 128 /\ hi = 159 /\ b = 237))) \/
  (sz = 4%nat /\
   ((lo = 144 /\ hi = 191 /\ b = 240) \/
    (lo = 128 /\ hi = 191 /\ 241 <= b <= 243) \/
    (lo = 128 /\ hi = 143 /\ b = 244))).
Proof.
  unfold utf8.first.
  repeat (match goal with |- context [if ?x then _ else _] => destruct x eqn:? end);
    try discriminate; intros [= <- <- <-]; lia.
Qed.

Ltac decode_step H := cbv beta iota zeta delta [negb] in H.
Ltac decode_goal := cbv beta iota zeta delta [negb].

(** What [DecodeRuneInString] says of a string that starts with a
    well-formed multi-byte sequence: the sequence has 2 to 4 bytes, none of
    them ASCII; it is the encoding of the rune; and the rune is decoded
    from the sequence whatever follows it. *)
Lemma DecodeRune_wellformed c0 t r size :
  128 <= byte c0 ->
  utf8.DecodeRuneInString (String c0 t) = (r, size) ->
  (r =? utf8.RuneError) && (size =? 1)%nat = false ->
  exists seq rest,
    String c0 t = seq +:+ rest /\
    take_bytes size (String c0 t) = seq /\
    drop_bytes size (String c0 t) = rest /\
    String.length seq = size /\ (2 <= size <= 4)%nat /\
    utf8.EncodeRune r = seq /\
    Forall (fun c => 128 <= byte c) (list_ascii_of_string seq) /\
    forall X, utf8.DecodeRuneInString (seq +:+ X) = (r, size).
Proof.
  intros H0 Hd Hv.
  assert (Hbad : (utf8.RuneError, 1%nat) = (r, size) -> False).
  { intros [= <- <-]. discriminate Hv. }
  unfold utf8.DecodeRuneInString in Hd.
  destruct (utf8.first (byte c0)) as [| |sz lo hi] eqn:F; decode_step Hd.
  { apply first_AS in F. lia. }
  { destruct (Hbad Hd). }
  pose proof (first_Lead _ _ _ _ F) as Hlead.
  destruct t as [|c1 t1]; decode_step Hd; [destruct (Hbad Hd)|].
  destruct (between lo (byte c1) hi) eqn:B1; decode_step Hd; [|destruct (Hbad Hd)].
  assert (R1 : lo <= byte c1 <= hi) by (unfold between in B1; lia).
  assert (H1 : 128 <= byte c1) by lia.
  destruct (sz <=? 2)%nat eqn:S2; decode_step Hd.
  { injection Hd as <- <-.
    exists (String c0 (String c1 EmptyString)), t1.
    repeat split; try reflexivity; try (cbn [String.length]; lia).
    - apply encode_decoded2; apply Nat.leb_le in S2; lia.
    - repeat constructor; assumption.
    - intros X. lazy beta iota delta [String.append]. unfold utf8.DecodeRuneInString.
      rewrite F. decode_goal. rewrite B1. decode_goal. rewrite S2. reflexivity. }
  apply Nat.leb_gt in S2.
  destruct t1 as [|c2 t2]; decode_step Hd; [destruct (Hbad Hd)|].
  destruct (between 128 (byte c2) 191) eqn:B2; decode_step Hd; [|destruct (Hbad Hd)].
  assert (R2 : 128 <= byte c2 <= 191) by (unfold between in B2; lia).
  destruct (sz <=? 3)%nat eqn:S3; decode_step Hd.
  { injection Hd as <- <-.
    exists (String c0 (String c1 (String c2 EmptyString))), t2.
    repeat split; try reflexivity; try (cbn [String.length]; lia).
    - apply encode_decoded3; [apply Nat.leb_le in S3; lia|assumption].
    - repeat constructor; lia.
    - intros X. lazy beta iota delta [String.append]. unfold utf8.DecodeRuneInString.
      rewrite F. decode_goal. rewrite B1. decode_goal.
      rewrite (proj2 (Nat.leb_gt _ _) S2). decode_goal.
      rewrite B2. decode_goal. rewrite S3. reflexivity. }
  apply Nat.leb_gt in S3.
  destruct t2 as [|c3 t3]; decode_step Hd; [destruct (Hbad Hd)|].
  destruct (between 128 (byte c3) 191) eqn:B3; decode_step Hd; [|destruct (Hbad Hd)].
  assert (R3 : 128 <= byte c3 <= 191) by (unfold between in B3; lia).
  injection Hd as <- <-.
  exists (String c0 (String c1 (String c2 (String c3 EmptyString)))), t3.
  repeat split; try reflexivity; try (cbn [String.length]; lia).
  - apply encode_decoded4; [lia|assumption|assumption].
  - repeat constructor; lia.
  - intros X. lazy beta iota delta [String.append]. unfold utf8.DecodeRuneInString.
    rewrite F. decode_goal. rewrite B1. decode_goal.
    rewrite (proj2 (Nat.leb_gt _ _) S2). decode_goal.
    rewrite B2. decode_goal. rewrite (proj2 (Nat.leb_gt _ _) S3). decode_goal.
    rewrite B3. reflexivity.
Qed.

(** *** The string escapes *)

Lemma append_cons c (a b : string) : String c a +:+ b = String c (a +:+ b).
Proof. reflexivity. Qed.

Lemma append_nil (b : string) : EmptyString +:+ b = b.
Proof. reflexivity. Qed.

Ltac norm_app := rewrite ?append_cons, ?append_nil.

Lemma append_assoc' (a b c : string) : (a +:+ b) +:+ c = a +:+ (b +:+ c).
Proof. induction a as [|x a IH]; norm_app; [reflexivity|rewrite IH; reflexivity]. Qed.

Lemma append_nil_r (a : string) : a +:+ EmptyString = a.
Proof. induction a as [|x a IH]; norm_app; [reflexivity|rewrite IH; reflexivity]. Qed.

Lemma length_append (a b : string) :
  String.length (a +:+ b) = (String.length a + String.length b)%nat.
Proof. induction a as [|x a IH]; norm_app; simpl; [reflexivity|rewrite IH; reflexivity]. Qed.

Lemma drop_bytes_app seg rest : drop_bytes (String.length seg) (seg +:+ rest) = rest.
Proof. induction seg as [|x seg IH]; norm_app; simpl; auto. Qed.

Lemma take_bytes_app seg rest : take_bytes (String.length seg) (seg +:+ rest) = seg.
Proof. induction seg as [|x seg IH]; norm_app; simpl; [reflexivity|rewrite IH; reflexivity]. Qed.

(** Safe ASCII bytes pass through [unquote] unchanged. *)
Lemma unquote_safe c f tail :
  (byte c <? utf8.RuneSelf) = true ->
  json.htmlSafeSet (byte c) = true ->
  json.unquote_loop (S f) (String c tail) = String c <$> json.unquote_loop f tail.
Proof.
  intros Hl Hs. cbn [json.unquote_loop].
  unfold json.htmlSafeSet, between in Hs.
  assert ((byte c =? 92) = false) as -> by lia.
  assert ((byte c =? 34) || (byte c <? 32) = false) as -> by lia.
  rewrite Hl. reflexivity.
Qed.

(** An escaped ASCII byte is read back as the byte. *)
Lemma unquote_escapeByte c f tail :
  (byte c <? utf8.RuneSelf) = true ->
  json.htmlSafeSet (byte c) = false ->
  json.unquote_loop (S f) (json.escapeByte c +:+ tail) = String c <$> json.unquote_loop f tail.
Proof.
  intros Hl Hs.
  destruct c as [[] [] [] [] [] [] [] []]; try discriminate Hl; try discriminate Hs;
    reflexivity.
Qed.

(** The escape written for an ill-formed byte is read back as U+FFFD. *)
Lemma unquote_replacement f tail :
  json.unquote_loop (S f) ("\ufffd" +:+ tail)
  = String.append (utf8.EncodeRune utf8.RuneError) <$> json.unquote_loop f tail.
Proof. reflexivity. Qed.

(** A well-formed multi-byte sequence is read back as itself. *)
Lemma unquote_sequence c0 t r size f tail :
  128 <= byte c0 ->
  utf8.DecodeRuneInString (String c0 t) = (r, size) ->
  (r =? utf8.RuneError) && (size =? 1)%nat = false ->
  json.unquote_loop (S f) (take_bytes size (String c0 t) +:+ tail)
  = String.append (take_bytes size (String c0 t)) <$> json.unquote_loop f tail.
Proof.
  intros H0 Hd Hv.
  destruct (DecodeRune_wellformed _ _ _ _ H0 Hd Hv)
    as (seq & rest & Hs & Ht & _ & Hlen & Hsz & He & Hall & HX).
  rewrite Ht. clear Ht Hd. subst size.
  destruct seq as [|d0 seq']; [simpl in Hsz; lia|].
  assert (d0 = c0) as ->.
  { rewrite append_cons in Hs. congruence. }
  rewrite append_cons. cbn [json.unquote_loop].
  assert ((byte c0 =? 92) = false) as -> by lia.
  assert ((byte c0 =? 34) || (byte c0 <? 32) = false) as -> by lia.
  assert ((byte c0 <? utf8.RuneSelf) = false) as -> by (unfold utf8.RuneSelf; lia).
  rewrite <- append_cons, HX, He, drop_bytes_app. reflexivity.
Qed.

(** U+2028 and U+2029 are written as escapes and read back as
    themselves. *)
Lemma unquote_line_separator c0 t r size f tail :
  128 <= byte c0 ->
  utf8.DecodeRuneInString (String c0 t) = (r, size) ->
  (r =? 8232) || (r =? 8233) = true ->
  json.unquote_loop (S f) ("\u202" +:+ String (hex (Z.land r 15)) EmptyString +:+ tail)
  = String.append (take_bytes size (String c0 t)) <$> json.unquote_loop f tail.
Proof.
  intros H0 Hd Hr.
  assert (Hv : (r =? utf8.RuneError) && (size =? 1)%nat = false).
  { unfold utf8.RuneError. destruct (Z.eqb_spec r 65533); [lia|reflexivity]. }
  destruct (DecodeRune_wellformed _ _ _ _ H0 Hd Hv)
    as (seq & rest & _ & Ht & _ & _ & _ & He & _ & _).
  rewrite Ht, <- He.
  destruct (Z.eqb_spec r 8232) as [->|]; [reflexivity|].
  destruct (Z.eqb_spec r 8233) as [->|]; [reflexivity|discriminate].
Qed.

(** Reading back what [appendString] wrote gives the string, coerced to
    well-formed UTF-8. *)
Lemma unquote_appendString_loop n : forall src f,
  (n <= f)%nat ->
  json.unquote_loop f (json.appendString_loop n src) = Some (json.coerce_loop n src).
Proof.
  induction n as [|n IH]; intros src f Hf.
  { destruct f; reflexivity. }
  destruct f as [|f]; [lia|]. assert (Hf' : (n <= f)%nat) by lia.
  destruct src as [|c rest]; [reflexivity|].
  cbn [json.appendString_loop json.coerce_loop].
  destruct (byte c <? utf8.RuneSelf) eqn:Hl.
  { destruct (json.htmlSafeSet (byte c)) eqn:Hs.
    - rewrite append_cons, append_nil, (unquote_safe _ _ _ Hl Hs), (IH _ _ Hf'). reflexivity.
    - rewrite (unquote_escapeByte _ _ _ Hl Hs), (IH _ _ Hf'). reflexivity. }
  assert (H0 : 128 <= byte c) by (unfold utf8.RuneSelf in Hl; lia).
  destruct (utf8.DecodeRuneInString (String c rest)) as [r size] eqn:Hd.
  destruct ((r =? utf8.RuneError) && (size =? 1)%nat) eqn:Hv.
  { rewrite unquote_replacement, (IH _ _ Hf'). reflexivity. }
  destruct ((r =? 8232) || (r =? 8233)) eqn:Hr.
  - rewrite (unquote_line_separator _ _ _ _ _ _ H0 Hd Hr), (IH _ _ Hf'). reflexivity.
  - rewrite (unquote_sequence _ _ _ _ _ _ H0 Hd Hv), (IH _ _ Hf'). reflexivity.
Qed.

(** The escapes are never shorter than what they stand for, so the fuel
    [unquote] takes from the length of the literal is enough. *)
Lemma appendString_loop_length n : forall src,
  (String.length src <= n)%nat ->
  (String.length src <= String.length (json.appendString_loop n src))%nat.
Proof.
  induction n as [|n IH]; intros src Hn.
  { destruct src; simpl in *; lia. }
  destruct src as [|c rest]; [simpl; lia|].
  cbn [json.appendString_loop]. cbn [String.length] in Hn |- *.
  assert (Hrest : (String.length rest <= n)%nat) by lia.
  destruct (byte c <? utf8.RuneSelf) eqn:Hl.
  { rewrite length_append. specialize (IH _ Hrest).
    destruct (json.htmlSafeSet (byte c)) eqn:Hs; [simpl; lia|].
    assert (1 <= String.length (json.escapeByte c))%nat; [|lia].
    unfold json.escapeByte.
    repeat (match goal with |- context [if ?x then _ else _] => destruct x end);
      simpl; lia. }
  assert (H0 : 128 <= byte c) by (unfold utf8.RuneSelf in Hl; lia).
  destruct (utf8.DecodeRuneInString (String c rest)) as [r size] eqn:Hd.
  destruct ((r =? utf8.RuneError) && (size =? 1)%nat) eqn:Hv.
  { rewrite length_append. specialize (IH _ Hrest). simpl. lia. }
  destruct (DecodeRune_wellformed _ _ _ _ H0 Hd Hv)
    as (seq & tail & Hs & Ht & Hdr & Hlen & Hsz & _).
  assert (Hsrc : String.length (String c rest) = (size + String.length tail)%nat).
  { rewrite Hs, length_append. lia. }
  cbn [String.length] in Hsrc.
  assert (Htail : (String.length tail <= n)%nat) by lia.
  rewrite Hdr. specialize (IH _ Htail).
  destruct ((r =? 8232) || (r =? 8233)).
  - rewrite !length_append. simpl. lia.
  - rewrite Ht, length_append. lia.
Qed.

Lemma unquote_appendString src :
  json.unquote (json.appendString_loop (String.length src) src) = Some (json.coerce src).
Proof.
  unfold json.unquote, json.coerce. apply unquote_appendString_loop.
  apply appendString_loop_length. lia.
Qed.

(** *** The scanner on encoded strings *)

Lemma run_app s a : forall b,
  json.run s (a +:+ b) =
  match json.run s a with
  | json.scanContinue s' => json.run s' b
  | r => r
  end.
Proof.
  revert s. induction a as [|c a IH]; intros s b; [reflexivity|].
  rewrite append_cons. cbn [json.run].
  destruct (json.scan s c); try reflexivity. apply IH.
Qed.

Lemma revapp_app a : forall b lit,
  json.revapp (a +:+ b) lit = json.revapp b (json.revapp a lit).
Proof.
  induction a as [|c a IH]; intros b lit; [reflexivity|].
  rewrite append_cons. cbn [json.revapp]. apply IH.
Qed.

Lemma revapp_revapp a : forall b c,
  json.revapp (json.revapp a b) c = json.revapp b (a +:+ c).
Proof.
  induction a as [|x a IH]; intros b c; [reflexivity|].
  cbn [json.revapp]. rewrite IH. reflexivity.
Qed.

Lemma rev_string_revapp a : json.rev_string (json.revapp a EmptyString) = a.
Proof.
  unfold json.rev_string. rewrite revapp_revapp. cbn [json.revapp]. apply append_nil_r.
Qed.

(** Inside a string literal the scanner takes any byte from 0x20 up that
    is not the quote or the backslash. *)
Lemma scan_plain c lit ps :
  (32 <=? byte c) && negb ((byte c =? 34) || (byte c =? 92)) = true ->
  json.scan (json.Scanner (json.stateInString lit) ps) c
  = json.scanContinue (json.Scanner (json.stateInString (String c lit)) ps).
Proof.
  intros H.
  destruct c as [[] [] [] [] [] [] [] []]; try discriminate H; reflexivity.
Qed.

Lemma run_plain seg : forall lit ps,
  Forall (fun c => 128 <= byte c) (list_ascii_of_string seg) ->
  json.run (json.Scanner (json.stateInString lit) ps) seg
  = json.scanContinue (json.Scanner (json.stateInString (json.revapp seg lit)) ps).
Proof.
  induction seg as [|c seg IH]; intros lit ps H; [reflexivity|].
  cbn [list_ascii_of_string] in H. inversion H as [|? ? Hc Hrest]; subst.
  cbn [json.run json.revapp]. rewrite scan_plain; [apply IH, Hrest|].
  pose proof (byte_chr_range c). lia.
Qed.

Lemma run_escapeByte c lit ps :
  (byte c <? utf8.RuneSelf) = true ->
  json.htmlSafeSet (byte c) = false ->
  json.run (json.Scanner (json.stateInString lit) ps) (json.escapeByte c)
  = json.scanContinue
      (json.Scanner (json.stateInString (json.revapp (json.escapeByte c) lit)) ps).
Proof.
  intros Hl Hs.
  destruct c as [[] [] [] [] [] [] [] []]; try discriminate Hl; try discriminate Hs;
    reflexivity.
Qed.

(** The scanner stays inside the literal over everything [appendString]
    writes between the quotes. *)
Lemma run_appendString_loop n : forall src lit ps,
  json.run (json.Scanner (json.stateInString lit) ps) (json.appendString_loop n src)
  = json.scanContinue
      (json.Scanner (json.stateInString (json.revapp (json.appendString_loop n src) lit)) ps).
Proof.
  induction n as [|n IH]; intros src lit ps; [reflexivity|].
  destruct src as [|c rest]; [reflexivity|].
  cbn [json.appendString_loop].
  destruct (byte c <? utf8.RuneSelf) eqn:Hl.
  { rewrite run_app, revapp_app.
    destruct (json.htmlSafeSet (byte c)) eqn:Hs.
    - cbn [json.run json.revapp]. rewrite scan_plain; [apply IH|].
      unfold json.htmlSafeSet, between in Hs. lia.
    - rewrite (run_escapeByte _ _ _ Hl Hs). apply IH. }
  assert (H0 : 128 <= byte c) by (unfold utf8.RuneSelf in Hl; lia).
  destruct (utf8.DecodeRuneInString (String c rest)) as [r size] eqn:Hd.
  destruct ((r =? utf8.RuneError) && (size =? 1)%nat) eqn:Hv.
  { rewrite run_app, revapp_app. cbn [json.run json.revapp].
    change (json.scan (json.Scanner (json.stateInString lit) ps) "\")
      with (json.scanContinue (json.Scanner (json.stateInStringEsc (String "\" lit)) ps)).
    cbv beta iota. apply IH. }
  destruct (DecodeRune_wellformed _ _ _ _ H0 Hd Hv)
    as (seq & tail & _ & Ht & _ & _ & _ & _ & Hall & _).
  destruct ((r =? 8232) || (r =? 8233)) eqn:Hr.
  - rewrite !run_app, !revapp_app.
    assert (Hx : hex (Z.land r 15) = "8"%char \/ hex (Z.land r 15) = "9"%char).
    { destruct (Z.eqb_spec r 8232) as [->|]; [left; reflexivity|].
      destruct (Z.eqb_spec r 8233) as [->|]; [right; reflexivity|discriminate]. }
    destruct Hx as [-> | ->]; apply IH.
  - rewrite run_app, revapp_app, Ht, (run_plain _ _ _ Hall). apply IH.
Qed.
(** *** How the calls run *)

Ltac run_M := unfold mbind, M_bind, mret, M_ret, defer, self in *; simpl in *.

Lemma app_nil_state st :
  {| client := client st; sent := sent st; opened := opened st; closed := closed st |} = st.
Proof. destruct st; reflexivity. Qed.

Lemma doRequest_unfold method url body st :
  doRequest method url body st =
  if url_Parse_ok (Client.apiBase (client st) +:+ url) then
    let req := requestOf (client st) method url body in
    match RoundTrip (sent st) req with
    | fail e => (fail e, afterSending st req [] [])
    | ok w =>
      (ok (http.Response.mk (http.wireStatus w) (http.wireStatusCode w)
             {| http.handle := length (sent st); http.content := http.wireBody w |}),
       afterSending st req [length (sent st)] [])
    end
  else (fail (urlError (Client.apiBase (client st) +:+ url)), st).
Proof.
  unfold doRequest, NewRequest. run_M.
  destruct (url_Parse_ok _); [|reflexivity].
  unfold Do, requestOf, afterSending. simpl.
  destruct (RoundTrip _ _); rewrite ?app_nil_r; reflexivity.
Qed.

Lemma call_unfold c st :
  call c st =
  if buildable c st then
    let req := requestOf (client st) (method c) (endpoint c) (payload c) in
    match RoundTrip (sent st) req with
    | fail e => (notAnswered c e, afterSending st req [] [])
    | ok w =>
      (answeredWith c w, afterSending st req [length (sent st)] [length (sent st)])
    end
  else (notSent c st, st).
Proof.
  destruct c; unfold call, buildable, ListZones, ListDNSRecords, CreateDNSRecord,
    UpdateDNSRecord, DeleteDNSRecord, payload, notSent, notAnswered, answeredWith,
    method, endpoint, newRecord, Close; run_M.
  4: destruct (jsonReader rec) eqn:Hj; simpl; run_M; [|reflexivity].
  all: rewrite doRequest_unfold;
    (destruct (url_Parse_ok _); [|reflexivity]); simpl;
    (destruct (RoundTrip _ _) as [w|e]; [|reflexivity]); simpl;
    unfold afterSending; simpl; rewrite ?app_nil_r.
  - destruct (Decode_cfZoneResult _); reflexivity.
  - destruct (Decode_cfDNSResult _); reflexivity.
  - destruct (http.wireStatusCode w =? 200); reflexivity.
  - destruct (http.wireStatusCode w =? 200); reflexivity.
  - destruct (http.wireStatusCode w =? 200); reflexivity.
Qed.

Lemma issued_unfold c st :
  issued c st =
  if buildable c st
  then [requestOf (client st) (method c) (endpoint c) (payload c)]
  else [].
Proof.
  unfold issued. rewrite call_unfold.
  destruct (buildable c st); simpl; [|apply drop_all].
  destruct (RoundTrip _ _); simpl; apply drop_app_length.
Qed.

Lemma requestOf_headers cl m u b :
  http.Request.Header (requestOf cl m u b) !! "X-Auth-Email" = Some [Client.authEmail cl] /\
  http.Request.Header (requestOf cl m u b) !! "X-Auth-Key" = Some [Client.authKey cl].
Proof.
  unfold requestOf, Request_Header_Set, http.Header_Set. simpl. split.
  - rewrite lookup_insert_ne by discriminate. apply lookup_insert_eq.
  - apply lookup_insert_eq.
Qed.

(** *** The claims *)

(** C1. A create, update or delete call whose request can be built (its
    URL parses and, for an update, the record serializes) and whose
    request the transport answers with [w] returns nil if and only if the
    status code of [w] is 200, whatever the body of [w]; for any other
    code it returns an error whose message is the status text of [w].
    The conditions are on what the call is given, not on what it does: a
    call that sent nothing and returned nil would not meet them. *)
Theorem mutating_call_nil_iff_200 c st w :
  mutating c = true ->
  buildable c st = true ->
  RoundTrip (sent st) (requestOf (client st) (method c) (endpoint c) (payload c)) = ok w ->
  (returnedError (fst (call c st)) = None <-> http.wireStatusCode w = 200) /\
  (http.wireStatusCode w <> 200 ->
   exists e, returnedError (fst (call c st)) = Some e /\ Error e = http.wireStatus w).
Proof.
  intros Hm Hb Hw. rewrite call_unfold, Hb. cbv zeta. rewrite Hw.
  cbn [fst].
  destruct c; try discriminate Hm; cbn [answeredWith returnedError];
    (destruct (Z.eqb_spec (http.wireStatusCode w) 200) as [->|Hne];
     [split; [split; reflexivity | intros []; reflexivity]
     |split; [split; [discriminate | contradiction]
             |intros _; eexists; split; reflexivity]]).
Qed.

Lemma list_calls_return_decoded_body_aux st req w :
  (issued callListZones st = [req] ->
   RoundTrip (sent st) req = ok w ->
   fst (ListZones st) = Decode_cfZoneResult (http.wireBody w)) /\
  (forall zoneID,
   issued (callListDNSRecords zoneID) st = [req] ->
   RoundTrip (sent st) req = ok w ->
   fst (ListDNSRecords zoneID st) = Decode_cfDNSResult (http.wireBody w)).
Proof.
  split; [|intros zoneID]; intros Hreq Hw; rewrite issued_unfold in Hreq;
    [pose proof (call_unfold callListZones st) as Hc
    |pose proof (call_unfold (callListDNSRecords zoneID) st) as Hc];
    (destruct (buildable _ st); [|discriminate]);
    injection Hreq as <-; simpl in Hc; rewrite Hw in Hc;
    unfold call in Hc; run_M.
  - destruct (ListZones st) as [r st']. simpl. congruence.
  - destruct (ListDNSRecords zoneID st) as [r st']. simpl. congruence.
Qed.


(** C6. Every request that one of the five operations issues for a client
    built by [NewClient authEmail authKey] carries the headers
    [X-Auth-Email: authEmail] and [X-Auth-Key: authKey], and its URL is the
    fixed base URL followed by the path of the operation (which ends in
    [per_page=1000] for the two list operations). *)
Theorem requests_carry_credentials_and_endpoint authEmail authKey c st req :
  client st = NewClient authEmail authKey ->
  req ∈ issued c st ->
  http.Request.Header req !! "X-Auth-Email" = Some [authEmail] /\
  http.Request.Header req !! "X-Auth-Key" = Some [authKey] /\
  http.Request.Method req = method c /\
  http.Request.URL req = "https://api.cloudflare.com/client/v4" +:+ endpoint c /\
  endpoint c =
    match c with
    | callListZones => "/zones?per_page=1000"
    | callListDNSRecords zoneID => "/zones/" +:+ zoneID +:+ "/dns_records?per_page=1000"
    | callCreateDNSRecord zoneID _ _ _ => "/zones/" +:+ zoneID +:+ "/dns_records"
    | callUpdateDNSRecord rec | callDeleteDNSRecord rec =>
      "/zones/" +:+ DNSRecord.ZoneID rec +:+ "/dns_records/" +:+ DNSRecord.ID rec
    end.
Proof.
  intros Hc Hin. rewrite issued_unfold in Hin.
  destruct (buildable c st); [|inversion Hin].
  apply list_elem_of_singleton in Hin. subst req.
  destruct (requestOf_headers (client st) (method c) (endpoint c) (payload c)) as [He Hk].
  rewrite He, Hk, Hc. simpl.
  repeat split.
Qed.

(** C7. A call hands exactly one request to [http.DefaultClient.Do], or
    none when its request cannot be built (the payload of an update does
    not serialize, or the URL does not parse); and the body of the
    response, when there is one, is closed by the time the call returns,
    whatever the status and whether or not the body decodes. *)
Theorem one_request_and_body_closed c st :
  sent (snd (call c st)) = sent st ++ issued c st /\
  length (issued c st) = (if buildable c st then 1 else 0)%nat /\
  exists bodies,
    opened (snd (call c st)) = opened st ++ bodies /\
    closed (snd (call c st)) = closed st ++ bodies /\
    bodies =
      match issued c st with
      | [req] =>
        match RoundTrip (sent st) req with
        | ok _ => [length (sent st)]
        | fail _ => []
        end
      | _ => []
      end.
Proof.
  rewrite issued_unfold, call_unfold.
  destruct (buildable c st); simpl.
  - destruct (RoundTrip _ _); simpl; (split; [reflexivity|split; [reflexivity|]]);
      eexists; repeat split; reflexivity.
  - rewrite !app_nil_r. split; [reflexivity|split; [reflexivity|]].
    exists []. rewrite !app_nil_r. repeat split.
Qed.

Lemma call_client c st : client (snd (call c st)) = client st.
Proof.
  rewrite call_unfold. destruct (buildable c st); [|reflexivity].
  simpl. destruct (RoundTrip _ _); reflexivity.
Qed.

(** C8. [NewClient] sets the three fields of the client; it is a function
    of its two arguments alone, it reads no state and issues no request.
    No call changes the client: after any sequence of calls its fields
    are those [NewClient] produced. *)
Theorem client_configuration_is_immutable authEmail authKey cs requests bodies closes :
  NewClient authEmail authKey =
    {| Client.apiBase := "https://api.cloudflare.com/client/v4";
       Client.authEmail := authEmail;
       Client.authKey := authKey |} /\
  client (exec cs {| client := NewClient authEmail authKey; sent := requests;
                     opened := bodies; closed := closes |})
  = NewClient authEmail authKey.
Proof.
  split; [reflexivity|].
  generalize (NewClient authEmail authKey) as cl.
  assert (H : forall st, client (exec cs st) = client st).
  { induction cs as [|c cs IH]; intros st; simpl; [reflexivity|].
    rewrite IH. apply call_client. }
  intros cl. apply H.
Qed.

(** C10. When the record does not serialize, [UpdateDNSRecord] returns the
    error of the serialization and issues no request: the state, and with
    it the log of requests, is unchanged. *)
Theorem update_returns_serialization_error rec err st :
  jsonReader rec = fail err ->
  UpdateDNSRecord rec st = (Some err, st) /\
  issued (callUpdateDNSRecord rec) st = [].
Proof.
  intros H. split.
  - unfold UpdateDNSRecord. rewrite H. reflexivity.
  - rewrite issued_unfold. unfold buildable. rewrite H. reflexivity.
Qed.

(** A value in [Data] that [json.Marshal] refuses makes the serialization
    fail (when the two timestamps are in range). *)
Lemma jsonReader_fails_on_Data rec d err created modified :
  time.MarshalJSON (DNSRecord.Created rec) = ok created ->
  time.MarshalJSON (DNSRecord.Modified rec) = ok modified ->
  DNSRecord.Data rec = Some d ->
  Any_Marshal d = fail err ->
  jsonReader rec = fail err.
Proof.
  intros Hc Hm Hd He. unfold jsonReader, Marshal_DNSRecord.
  rewrite Hc, Hm, Hd. simpl. rewrite He. reflexivity.
Qed.

(** *** Decoding the envelope *)

Lemma decodeElems_Forall2 {A} (elem : json.Value -> Result A) vs zs :
  Forall2 (fun v z => elem v = ok z) vs zs ->
  json.decodeElems elem vs = ok zs.
Proof.
  induction 1 as [|v z vs zs Hv _ IH]; simpl; [reflexivity|].
  rewrite Hv. simpl. rewrite IH. reflexivity.
Qed.

Lemma decodeMembers_skip {T} (field : T -> string -> json.Value -> Result T) old members :
  (forall kv, kv ∈ members -> field old kv.1 kv.2 = ok old) ->
  json.decodeMembers field old members = ok old.
Proof.
  induction members as [|[k v] rest IH]; intros H; simpl; [reflexivity|].
  pose proof (H (k, v) (list_elem_of_here _ _)) as Hk. simpl in Hk.
  rewrite Hk. simpl.
  apply IH. intros kv Hin. apply H. apply list_elem_of_further, Hin.
Qed.

Lemma decodeMembers_app {T} (field : T -> string -> json.Value -> Result T) old mid pre post :
  json.decodeMembers field old pre = ok mid ->
  json.decodeMembers field old (pre ++ post) = json.decodeMembers field mid post.
Proof.
  revert old. induction pre as [|[k v] rest IH]; intros old H; simpl in *.
  - congruence.
  - destruct (field old k v) as [t|e]; simpl in *; [|discriminate].
    apply IH, H.
Qed.

(** An envelope with one member selected by [Result], an array whose
    elements decode to [zs], and any other members around it, decodes to
    [zs]. *)
Lemma decode_envelope {A} (elemOf : json.Value -> Result A)
    (field : list A -> string -> json.Value -> Result (list A)) pre k vs post zs :
  (forall res key v, field res key v =
     if json.fieldMatch "Result" key then json.decodeSlice elemOf res v else ok res) ->
  json.fieldMatch "Result" k = true ->
  (forall kv, kv ∈ pre ++ post -> json.fieldMatch "Result" kv.1 = false) ->
  Forall2 (fun v z => elemOf v = ok z) vs zs ->
  json.decodeStruct field [] (json.Object (pre ++ (k, json.Array vs) :: post)) = ok zs.
Proof.
  intros Hf Hk Hothers Hvs. simpl.
  rewrite (decodeMembers_app field [] []).
  - simpl. rewrite Hf, Hk. simpl. rewrite (decodeElems_Forall2 _ _ _ Hvs). simpl.
    apply decodeMembers_skip. intros kv Hin. rewrite Hf, Hothers; [reflexivity|].
    apply elem_of_app. right. exact Hin.
  - apply decodeMembers_skip. intros kv Hin. rewrite Hf, Hothers; [reflexivity|].
    apply elem_of_app. left. exact Hin.
Qed.

(** C3. When the body of the response to [ListZones] is a JSON object with
    one member named [result] (in any letter case) holding an array, and
    the elements of the array decode to the zones [zs], [ListZones]
    returns exactly [zs], in the order of the array, and no error. *)
Theorem list_zones_returns_result_array st req w pre k vs post zs :
  issued callListZones st = [req] ->
  RoundTrip (sent st) req = ok w ->
  json.readValue (http.wireBody w) = ok (json.Object (pre ++ (k, json.Array vs) :: post)) ->
  json.fieldMatch "Result" k = true ->
  (forall kv, kv ∈ pre ++ post -> json.fieldMatch "Result" kv.1 = false) ->
  Forall2 (fun v z => decodeZone Zone.zero v = ok z) vs zs ->
  fst (ListZones st) = ok zs /\ length zs = length vs.
Proof.
  intros Hreq Hw Hbody Hk Hothers Hvs.
  destruct (list_calls_return_decoded_body_aux st req w) as [Hz _].
  rewrite (Hz Hreq Hw). unfold Decode_cfZoneResult. rewrite Hbody.
  split; [|symmetry; eapply Forall2_length, Hvs].
  change (json.decodeStruct cfZoneResult_field []
            (json.Object (pre ++ (k, json.Array vs) :: post)) = ok zs).
  apply (decode_envelope (decodeZone Zone.zero)); auto.
Qed.

(** *** Request bodies *)

Lemma run_appendString src ps :
  json.run (json.Scanner json.stateBeginValue ps) (json.appendString src)
  = match ps with
    | json.ObjKey done :: r =>
      json.scanContinue (json.Scanner json.stateEndValue (json.ObjColon done (json.coerce src) :: r))
    | _ => json.valueDone ps (json.Str (json.coerce src))
    end.
Proof.
  unfold json.appendString. cbn [json.run].
  change (json.scan (json.Scanner json.stateBeginValue ps) dq)
    with (json.scanContinue (json.Scanner (json.stateInString EmptyString) ps)).
  cbv beta iota. rewrite run_app, run_appendString_loop. cbn [json.run].
  change (json.scan (json.Scanner (json.stateInString ?lit) ps) dq)
    with (json.stringDone ps lit).
  unfold json.stringDone. rewrite rev_string_revapp, unquote_appendString.
  destruct ps as [|[] r]; cbn [json.valueDone]; reflexivity.
Qed.

Lemma validFrom_run a : forall s s' b,
  json.run s a = json.scanContinue s' ->
  json.validFrom s (a +:+ b) = json.validFrom s' b.
Proof.
  induction a as [|c a IH]; intros s s' b H.
  - injection H as <-. reflexivity.
  - rewrite append_cons. cbn [json.run] in H. cbn [json.validFrom].
    destruct (json.scan s c); try discriminate. apply IH, H.
Qed.

Lemma readValueFrom_run a : forall s s' b,
  json.run s a = json.scanContinue s' ->
  json.readValueFrom s (a +:+ b) = json.readValueFrom s' b.
Proof.
  induction a as [|c a IH]; intros s s' b H.
  - injection H as <-. reflexivity.
  - rewrite append_cons. cbn [json.run] in H. cbn [json.readValueFrom].
    destruct (json.scan s c); try discriminate. apply IH, H.
Qed.

(** The decoder reads the literal [appendString] writes for [s] as [s],
    coerced to well-formed UTF-8. *)
Lemma readValue_appendString s :
  json.readValue (json.appendString s) = ok (json.Str (json.coerce s)).
Proof.
  unfold json.readValue. rewrite <- (append_nil_r (json.appendString s)).
  rewrite (readValueFrom_run _ _ _ _ (run_appendString s [])). reflexivity.
Qed.

Lemma run_appendString_member src done k r :
  json.run (json.Scanner json.stateBeginValue (json.ObjValue done k :: r))
    (json.appendString src)
  = json.scanContinue
      (json.Scanner json.stateEndValue
         (json.ObjNext ((k, json.Str (json.coerce src)) :: done) :: r)).
Proof. rewrite run_appendString. reflexivity. Qed.

Lemma MarshalJSON_zero :
  time.MarshalJSON time.zero = ok (jsontext "'0001-01-01T00:00:00Z'").
Proof. vm_compute. reflexivity. Qed.

(** The serialization of the record [CreateDNSRecord] builds. *)
Lemma jsonReader_newRecord name rectype content :
  jsonReader (newRecord name rectype content) =
  ok (jsontext "{'name':" +:+ json.appendString name
      +:+ jsontext ",'type':" +:+ json.appendString rectype
      +:+ jsontext ",'content':" +:+ json.appendString content
      +:+ jsontext ",'proxiable':false,'proxied':false,'locked':false,'created_on':'0001-01-01T00:00:00Z','modified_on':'0001-01-01T00:00:00Z'}").
Proof.
  unfold jsonReader, Marshal_DNSRecord, newRecord.
  cbn [DNSRecord.Created DNSRecord.Modified DNSRecord.Data DNSRecord.Name DNSRecord.Type'
       DNSRecord.Content DNSRecord.ID DNSRecord.TTL DNSRecord.Proxiable DNSRecord.Proxied
       DNSRecord.Locked DNSRecord.ZoneID DNSRecord.ZoneName].
  rewrite MarshalJSON_zero.
  generalize (json.appendString name) as q1.
  generalize (json.appendString rectype) as q2.
  generalize (json.appendString content) as q3.
  intros q3 q2 q1. cbn -[String.append].
  unfold json.encodeStruct, json.member. cbn [String.concat].
  repeat rewrite ?append_assoc', ?append_cons, ?append_nil. reflexivity.
Qed.

Lemma newRecord_body_valid name rectype content :
  json.Valid
    (jsontext "{'name':" +:+ json.appendString name
     +:+ jsontext ",'type':" +:+ json.appendString rectype
     +:+ jsontext ",'content':" +:+ json.appendString content
     +:+ jsontext ",'proxiable':false,'proxied':false,'locked':false,'created_on':'0001-01-01T00:00:00Z','modified_on':'0001-01-01T00:00:00Z'}")
  = true.
Proof.
  unfold json.Valid.
  rewrite (validFrom_run (jsontext "{'name':") json.reset
             (json.Scanner json.stateBeginValue [json.ObjValue [] "name"]))
    by (vm_compute; reflexivity).
  rewrite (validFrom_run _ _ _ _ (run_appendString_member name [] "name" [])).
  generalize (json.coerce name) as v1. intros v1.
  rewrite (validFrom_run (jsontext ",'type':")
             (json.Scanner json.stateEndValue [json.ObjNext [("name", json.Str v1)]])
             (json.Scanner json.stateBeginValue
                [json.ObjValue [("name", json.Str v1)] "type"]))
    by (vm_compute; reflexivity).
  rewrite (validFrom_run _ _ _ _ (run_appendString_member rectype _ "type" [])).
  generalize (json.coerce rectype) as v2. intros v2.
  rewrite (validFrom_run (jsontext ",'content':")
             (json.Scanner json.stateEndValue
                [json.ObjNext [("type", json.Str v2); ("name", json.Str v1)]])
             (json.Scanner json.stateBeginValue
                [json.ObjValue [("type", json.Str v2); ("name", json.Str v1)] "content"]))
    by (vm_compute; reflexivity).
  rewrite <- (append_nil_r (jsontext ",'proxiable':false,'proxied':false,'locked':false,'created_on':'0001-01-01T00:00:00Z','modified_on':'0001-01-01T00:00:00Z'}")).
  rewrite (validFrom_run _ _ _ _ (run_appendString_member content _ "content" [])).
  generalize (json.coerce content) as v3. intros v3.
  vm_compute. reflexivity.
Qed.

(** C9. [CreateDNSRecord] drops the error of [jsonReader], and there is
    none to drop: for any name, type and content the record serializes,
    to a well-formed JSON text, and that text is the body of the request
    the call issues, whatever the zone. *)
Theorem create_payload_always_serializes zoneID name rectype content :
  exists body,
    jsonReader (newRecord name rectype content) = ok body /\
    json.Valid body = true /\
    forall st,
      Forall (fun req => http.Request.Body req = Some body)
        (issued (callCreateDNSRecord zoneID name rectype content) st).
Proof.
  eexists. split; [apply jsonReader_newRecord|].
  split; [apply newRecord_body_valid|].
  intros st. rewrite issued_unfold.
  destruct (buildable _ st); constructor; [|constructor].
  unfold requestOf, Request_Header_Set, payload. cbn [http.Request.Body].
  rewrite jsonReader_newRecord. reflexivity.
Qed.

(** *** Members of a serialized record *)

Lemma Contains_intro pre s post : Contains (pre +:+ s +:+ post) s.
Proof. exists pre, post. reflexivity. Qed.








(** C2 (what the code does).  The body [CreateDNSRecord] sends for the
    record [test.example.com A 192.168.0.2] has the members [name], [type],
    [content], [proxiable], [proxied] and [locked], and after them
    [created_on] and [modified_on] holding the zero time: [omitempty] does
    not drop a [time.Time].  It is not the body without the two
    timestamps. *)
Theorem create_body_has_zero_timestamps st :
  Forall (fun req =>
    http.Request.Body req = Some (jsontext
      "{'name':'test.example.com','type':'A','content':'192.168.0.2','proxiable':false,'proxied':false,'locked':false,'created_on':'0001-01-01T00:00:00Z','modified_on':'0001-01-01T00:00:00Z'}"))
    (issued (callCreateDNSRecord "z1" "test.example.com" "A" "192.168.0.2") st) /\
  jsonReader (newRecord "test.example.com" "A" "192.168.0.2") <> ok (jsontext
      "{'name':'test.example.com','type':'A','content':'192.168.0.2','proxiable':false,'proxied':false,'locked':false}").
Proof.
  assert (H : jsonReader (newRecord "test.example.com" "A" "192.168.0.2") = ok (jsontext
      "{'name':'test.example.com','type':'A','content':'192.168.0.2','proxiable':false,'proxied':false,'locked':false,'created_on':'0001-01-01T00:00:00Z','modified_on':'0001-01-01T00:00:00Z'}")).
  { rewrite jsonReader_newRecord. vm_compute. reflexivity. }
  split.
  - rewrite issued_unfold.
    destruct (buildable _ st); constructor; [|constructor].
    unfold requestOf, Request_Header_Set, payload. cbn [http.Request.Body].
    rewrite H. reflexivity.
  - rewrite H. intros E. apply (f_equal (fun r => match r with
                                                  | ok b => String.length b
                                                  | fail _ => O
                                                  end)) in E.
    vm_compute in E. discriminate E.
Qed.


(** *** Errors before and on the wire *)


(** When the URL of a call does not parse, nothing is sent: the state is
    left as it was and the call returns the URL error (for an update whose
    record does not serialize, the error of the serialization, which
    comes first). *)
Theorem unparsable_url_sends_nothing c st :
  url_Parse_ok (Client.apiBase (client st) +:+ endpoint c) = false ->
  snd (call c st) = st /\
  issued c st = [] /\
  returnedError (fst (call c st)) =
    Some match c with
         | callUpdateDNSRecord rec =>
           match jsonReader rec with
           | fail err => err
           | ok _ => urlError (Client.apiBase (client st) +:+ endpoint c)
           end
         | _ => urlError (Client.apiBase (client st) +:+ endpoint c)
         end.
Proof.
  intros Hurl. rewrite issued_unfold, call_unfold.
  assert (Hb : buildable c st = false).
  { unfold buildable. rewrite Hurl. apply andb_false_r. }
  rewrite Hb. cbn [fst snd]. split; [reflexivity|]. split; [reflexivity|].
  destruct c; reflexivity.
Qed.

(** *** The requests *)

(** A request has the two authentication headers and no other: in
    particular no [Content-Type], also when it carries a JSON body. *)
Theorem requests_have_two_headers_only c st req :
  issued c st = [req] ->
  size (http.Request.Header req) = 2%nat /\
  http.Request.Header req !! "Content-Type" = None /\
  forall key, key <> "X-Auth-Email"%string -> key <> "X-Auth-Key"%string ->
    http.Request.Header req !! key = None.
Proof.
  intros Hreq. rewrite issued_unfold in Hreq.
  destruct (buildable c st); [|discriminate]. injection Hreq as <-.
  unfold requestOf, Request_Header_Set, http.Header_Set. cbn [http.Request.Header].
  assert (Hother : forall key : string, key <> "X-Auth-Email"%string ->
            key <> "X-Auth-Key"%string ->
            (<["X-Auth-Key"%string := [Client.authKey (client st)]]>
               (<["X-Auth-Email"%string := [Client.authEmail (client st)]]>
                  (∅ : gmap string (list string)))) !! key = None).
  { intros key H1 H2. rewrite !lookup_insert_ne by congruence. apply lookup_empty. }
  split; [|split; [apply Hother; discriminate|exact Hother]].
  rewrite map_size_insert_None.
  - rewrite map_size_insert_None; [reflexivity|apply lookup_empty].
  - rewrite lookup_insert_ne by discriminate. apply lookup_empty.
Qed.

(** The GET and DELETE requests carry no body; the POST and PUT requests
    always carry one, the serialization of the record. *)
Theorem body_goes_with_method c st req :
  issued c st = [req] ->
  match c with
  | callListZones | callListDNSRecords _ | callDeleteDNSRecord _ =>
    http.Request.Body req = None
  | callCreateDNSRecord _ name rectype content =>
    exists b, http.Request.Body req = Some b /\
              jsonReader (newRecord name rectype content) = ok b
  | callUpdateDNSRecord rec =>
    exists b, http.Request.Body req = Some b /\ jsonReader rec = ok b
  end.
Proof.
  intros Hreq. rewrite issued_unfold in Hreq.
  destruct (buildable c st) eqn:Hb; [|discriminate]. injection Hreq as <-.
  unfold requestOf, Request_Header_Set. cbn [http.Request.Body].
  destruct c; cbn [payload]; try reflexivity.
  - rewrite jsonReader_newRecord. eexists. split; reflexivity.
  - unfold buildable in Hb. destruct (jsonReader rec) as [b|]; [|discriminate Hb].
    exists b. split; reflexivity.
Qed.

(** *** Sequences of calls *)

Lemma call_logs c st :
  exists reqs hs,
    sent (snd (call c st)) = sent st ++ reqs /\
    (length reqs <= 1)%nat /\
    opened (snd (call c st)) = opened st ++ hs /\
    closed (snd (call c st)) = closed st ++ hs /\
    (hs = [] \/ hs = [length (sent st)] /\ reqs <> []).
Proof.
  rewrite call_unfold. destruct (buildable c st); cbv zeta.
  - destruct (RoundTrip _ _); cbn [snd afterSending sent opened closed];
      eexists; eexists; repeat split; try reflexivity; cbn; try lia.
    + right. split; [reflexivity|discriminate].
    + left. reflexivity.
  - exists [], []. cbn [snd]. rewrite !app_nil_r. repeat split; cbn; try lia.
    left. reflexivity.
Qed.

(** The logs only grow, by at most one request per call; every body that
    was opened has been closed when the sequence ends; and no body is
    opened twice. *)
Theorem no_body_left_open_after_calls authEmail authKey cs :
  let st := exec cs (freshState authEmail authKey) in
  opened st = closed st /\
  NoDup (opened st) /\
  (length (sent st) <= length cs)%nat /\
  client st = NewClient authEmail authKey.
Proof.
  cbv zeta.
  assert (H : forall st0,
            opened st0 = closed st0 ->
            NoDup (opened st0) ->
            Forall (fun h => (h < length (sent st0))%nat) (opened st0) ->
            let st := exec cs st0 in
            opened st = closed st /\ NoDup (opened st) /\
            (length (sent st) <= length (sent st0) + length cs)%nat /\
            client st = client st0).
  { induction cs as [|c cs IH]; intros st0 Hoc Hnd Hlt; cbn [exec length].
    - repeat split; auto. lia.
    - destruct (call_logs c st0) as (reqs & hs & Hs & Hl & Ho & Hc & Hhs).
      destruct (IH (snd (call c st0))) as (H1 & H2 & H3 & H4).
      + rewrite Ho, Hc, Hoc. reflexivity.
      + rewrite Ho. destruct Hhs as [->|[-> _]]; [rewrite app_nil_r; exact Hnd|].
        apply NoDup_app. split; [exact Hnd|]. split; [|apply NoDup_singleton].
        intros h Hin Hin'. apply list_elem_of_singleton in Hin'. subst h.
        rewrite Forall_forall in Hlt. specialize (Hlt _ Hin). lia.
      + rewrite Ho, Hs, Forall_app. split.
        * eapply Forall_impl; [exact Hlt|]. cbv beta. intros h Hh.
          rewrite length_app. lia.
        * destruct Hhs as [->|[-> Hne]]; [constructor|].
          constructor; [|constructor]. rewrite length_app.
          destruct reqs; [congruence|cbn; lia].
      + repeat split; auto.
        * rewrite Hs, length_app in H3. lia.
        * rewrite H4. apply call_client. }
  destruct (H (freshState authEmail authKey) eq_refl ltac:(constructor) ltac:(constructor))
    as (H1 & H2 & H3 & H4).
  repeat split; auto.
Qed.

(** *** What the list calls make of a body *)

Lemma list_call_answer c st req w :
  mutating c = false ->
  issued c st = [req] ->
  RoundTrip (sent st) req = ok w ->
  fst (call c st) =
  match c with
  | callListZones => zones (Decode_cfZoneResult (http.wireBody w))
  | _ => records (Decode_cfDNSResult (http.wireBody w))
  end.
Proof.
  intros Hm Hreq Hw. rewrite issued_unfold in Hreq. rewrite call_unfold.
  destruct (buildable c st); [|discriminate]. injection Hreq as <-.
  cbv zeta. rewrite Hw. destruct c; try discriminate Hm; reflexivity.
Qed.







(** [ListDNSRecords], like [ListZones], returns the records decoded from
    the [result] array, as many and in the same order. *)
Theorem list_records_returns_result_array zoneID st req w pre k vs post rs :
  issued (callListDNSRecords zoneID) st = [req] ->
  RoundTrip (sent st) req = ok w ->
  json.readValue (http.wireBody w) = ok (json.Object (pre ++ (k, json.Array vs) :: post)) ->
  json.fieldMatch "Result" k = true ->
  (forall kv, kv ∈ pre ++ post -> json.fieldMatch "Result" kv.1 = false) ->
  Forall2 (fun v r => decodeDNSRecord DNSRecord.zero v = ok r) vs rs ->
  fst (ListDNSRecords zoneID st) = ok rs /\ length rs = length vs.
Proof.
  intros Hreq Hw Hbody Hk Hothers Hvs.
  pose proof (list_call_answer (callListDNSRecords zoneID) st req w eq_refl Hreq Hw) as Hr.
  unfold call, mbind, M_bind, mret, M_ret in Hr.
  destruct (ListDNSRecords zoneID st) as [r st']. cbn [fst] in *.
  injection Hr as ->. unfold Decode_cfDNSResult. rewrite Hbody.
  split; [|symmetry; eapply Forall2_length, Hvs].
  change (json.decodeStruct cfDNSResult_field []
            (json.Object (pre ++ (k, json.Array vs) :: post)) = ok rs).
  apply (decode_envelope (decodeDNSRecord DNSRecord.zero)); auto.
Qed.

(** *** What was written is read back *)

Lemma take_drop_bytes n s : take_bytes n s +:+ drop_bytes n s = s.
Proof.
  revert s. induction n as [|n IH]; intros s; [reflexivity|].
  destruct s as [|c s]; [reflexivity|]. cbn [take_bytes drop_bytes].
  rewrite append_cons, IH. reflexivity.
Qed.

(** Well-formed UTF-8 is left as it is by the coercion. *)
Lemma coerce_loop_valid n : forall s,
  utf8.ValidString_loop n s = true -> json.coerce_loop n s = s.
Proof.
  induction n as [|n IH]; intros s H.
  { destruct s; [reflexivity|discriminate H]. }
  destruct s as [|c rest]; [reflexivity|].
  cbn [utf8.ValidString_loop json.coerce_loop] in *.
  destruct (byte c <? utf8.RuneSelf).
  { rewrite (IH _ H). reflexivity. }
  destruct (utf8.DecodeRuneInString (String c rest)) as [r size].
  destruct ((r =? utf8.RuneError) && (size =? 1)%nat); [discriminate H|].
  rewrite (IH _ H). apply take_drop_bytes.
Qed.

Lemma coerce_valid s : utf8.ValidString s = true -> json.coerce s = s.
Proof. apply coerce_loop_valid. Qed.

(** The string [jsonReader] writes for a field that holds well-formed
    UTF-8 is read back by the decoder as the same string, whatever bytes
    had to be escaped. *)
Theorem string_field_round_trip s :
  utf8.ValidString s = true ->
  json.readValue (json.appendString s) = ok (json.Str s) /\
  json.decodeString EmptyString (json.Str s) = ok s.
Proof.
  intros H. rewrite readValue_appendString, (coerce_valid _ H). split; reflexivity.
Qed.

(** A service that keeps what [CreateDNSRecord] sent and lists it back
    gives [ListDNSRecords] the record that was created: the same name,
    type and content, and every other field zero.  (The decoder has to
    know the zero time.) *)
Theorem created_record_lists_back name rectype content body :
  utf8.ValidString name = true ->
  utf8.ValidString rectype = true ->
  utf8.ValidString content = true ->
  time_Parse "0001-01-01T00:00:00Z" = Some time.zero ->
  jsonReader (newRecord name rectype content) = ok body ->
  Decode_cfDNSResult (jsontext "{'result':[" +:+ body +:+ "]}")
  = ok [newRecord name rectype content].
Proof.
  intros Hn Ht Hc Htime Hbody. rewrite jsonReader_newRecord in Hbody.
  injection Hbody as <-.
  unfold Decode_cfDNSResult, json.readValue.
  rewrite !append_assoc'.
  rewrite (readValueFrom_run (jsontext "{'result':[") json.reset
             (json.Scanner json.stateBeginValueOrEmpty
                [json.Arr []; json.ObjValue [] "result"]))
    by (vm_compute; reflexivity).
  rewrite (readValueFrom_run (jsontext "{'name':")
             (json.Scanner json.stateBeginValueOrEmpty
                [json.Arr []; json.ObjValue [] "result"])
             (json.Scanner json.stateBeginValue
                [json.ObjValue [] "name"; json.Arr []; json.ObjValue [] "result"]))
    by (vm_compute; reflexivity).
  rewrite (readValueFrom_run _ _ _ _ (run_appendString_member name [] "name" _)).
  rewrite (coerce_valid _ Hn).
  rewrite (readValueFrom_run (jsontext ",'type':")
             (json.Scanner json.stateEndValue
                [json.ObjNext [("name", json.Str name)]; json.Arr [];
                 json.ObjValue [] "result"])
             (json.Scanner json.stateBeginValue
                [json.ObjValue [("name", json.Str name)] "type"; json.Arr [];
                 json.ObjValue [] "result"]))
    by (vm_compute; reflexivity).
  rewrite (readValueFrom_run _ _ _ _ (run_appendString_member rectype _ "type" _)).
  rewrite (coerce_valid _ Ht).
  rewrite (readValueFrom_run (jsontext ",'content':")
             (json.Scanner json.stateEndValue
                [json.ObjNext [("type", json.Str rectype); ("name", json.Str name)];
                 json.Arr []; json.ObjValue [] "result"])
             (json.Scanner json.stateBeginValue
                [json.ObjValue [("type", json.Str rectype); ("name", json.Str name)]
                   "content"; json.Arr []; json.ObjValue [] "result"]))
    by (vm_compute; reflexivity).
  rewrite (readValueFrom_run _ _ _ _ (run_appendString_member content _ "content" _)).
  rewrite (coerce_valid _ Hc).
  match goal with |- context [json.readValueFrom ?s ?t] =>
    assert (Hv : json.readValueFrom s t = ok (json.Object
      [("result", json.Array [json.Object
         [("name", json.Str name); ("type", json.Str rectype);
          ("content", json.Str content);
          ("proxiable", json.Bool false); ("proxied", json.Bool false);
          ("locked", json.Bool false);
          ("created_on", json.Str "0001-01-01T00:00:00Z");
          ("modified_on", json.Str "0001-01-01T00:00:00Z")]])]))
      by (vm_compute; reflexivity)
  end.
  rewrite Hv. cbn [mbind Result_bind].
  unfold newRecord.
  cbv. rewrite Htime. reflexivity.
Qed.

(** *** The example *)

Lemma ListZones_unfold st :
  ListZones st =
  if url_Parse_ok (Client.apiBase (client st) +:+ "/zones?per_page=1000") then
    let req := requestOf (client st) "GET" "/zones?per_page=1000" None in
    match RoundTrip (sent st) req with
    | fail e => (fail e, afterSending st req [] [])
    | ok w =>
      (Decode_cfZoneResult (http.wireBody w),
       afterSending st req [length (sent st)] [length (sent st)])
    end
  else (fail (urlError (Client.apiBase (client st) +:+ "/zones?per_page=1000")), st).
Proof.
  pose proof (call_unfold callListZones st) as H.
  unfold call, buildable, endpoint, method, payload in H. run_M.
  destruct (ListZones st) as [r st'].
  destruct (url_Parse_ok _); cbn [andb] in H.
  - destruct (RoundTrip _ _); cbn [notAnswered answeredWith] in H; congruence.
  - cbn [notSent] in H. congruence.
Qed.

Lemma CreateDNSRecord_unfold zoneID name rectype content st :
  CreateDNSRecord zoneID name rectype content st =
  if url_Parse_ok (Client.apiBase (client st) +:+ "/zones/" +:+ zoneID +:+ "/dns_records") then
    let req := requestOf (client st) "POST" ("/zones/" +:+ zoneID +:+ "/dns_records")
                 (payload (callCreateDNSRecord zoneID name rectype content)) in
    match RoundTrip (sent st) req with
    | fail e => (Some e, afterSending st req [] [])
    | ok w =>
      (if http.wireStatusCode w =? 200 then None
       else Some (errorString (http.wireStatus w)),
       afterSending st req [length (sent st)] [length (sent st)])
    end
  else (Some (urlError (Client.apiBase (client st) +:+ "/zones/" +:+ zoneID
                          +:+ "/dns_records")), st).
Proof.
  pose proof (call_unfold (callCreateDNSRecord zoneID name rectype content) st) as H.
  unfold call, buildable, endpoint, method in H. run_M.
  destruct (CreateDNSRecord zoneID name rectype content st) as [r st'].
  destruct (url_Parse_ok _); cbn [andb] in H.
  - destruct (RoundTrip _ _); cbn [notAnswered answeredWith] in H; congruence.
  - cbn [notSent] in H. congruence.
Qed.

(** The loop of the example stops at the first zone named [example.com]. *)
Lemma findExampleZone_first pre z post initial :
  Forall (fun z' => Zone.Name z' <> "example.com"%string) pre ->
  Zone.Name z = "example.com"%string ->
  findExampleZone (pre ++ z :: post) initial = z.
Proof.
  intros Hpre Hz. induction Hpre as [|z' pre Hz' _ IH]; cbn [app findExampleZone].
  - rewrite Hz. reflexivity.
  - destruct (String.eqb_spec (Zone.Name z') "example.com"); [contradiction|exact IH].
Qed.

Lemma findExampleZone_none zones initial :
  Forall (fun z' => Zone.Name z' <> "example.com"%string) zones ->
  findExampleZone zones initial = initial.
Proof.
  intros H. induction H as [|z' zs Hz' _ IH]; cbn [findExampleZone]; [reflexivity|].
  destruct (String.eqb_spec (Zone.Name z') "example.com"); [contradiction|exact IH].
Qed.

(** The example creates the record [test.example.com A 192.168.0.2] in the
    first zone of the list that is named [example.com], with two requests
    in all: it returns when the service answers the second with 200 and
    panics otherwise. *)
Theorem example_creates_record_in_first_example_zone st w pre z post :
  let cl := NewClient "test@example.com" "dc771129ae047c934adba2d1dc4fe184" in
  let get := requestOf cl "GET" "/zones?per_page=1000" None in
  let post_ := requestOf cl "POST" ("/zones/" +:+ Zone.ID z +:+ "/dns_records")
    (Some (jsontext "{'name':'test.example.com','type':'A','content':'192.168.0.2','proxiable':false,'proxied':false,'locked':false,'created_on':'0001-01-01T00:00:00Z','modified_on':'0001-01-01T00:00:00Z'}")) in
  url_Parse_ok (http.Request.URL get) = true ->
  url_Parse_ok (http.Request.URL post_) = true ->
  RoundTrip (sent st) get = ok w ->
  Decode_cfZoneResult (http.wireBody w) = ok (pre ++ z :: post) ->
  Forall (fun z' => Zone.Name z' <> "example.com"%string) pre ->
  Zone.Name z = "example.com"%string ->
  Zone.ID z <> EmptyString ->
  sent (snd (ExampleClient st)) = sent st ++ [get; post_] /\
  fst (ExampleClient st) =
    match RoundTrip (sent st ++ [get]) post_ with
    | ok w' =>
      if http.wireStatusCode w' =? 200 then returns
      else panics (errorString (http.wireStatus w'))
    | fail e => panics e
    end.
Proof.
  intros cl get post_ Hu1 Hu2 Hw Hzones Hpre Hname Hid.
  unfold ExampleClient, useClient, mbind, M_bind, mret, M_ret. cbv beta iota.
  rewrite ListZones_unfold.
  cbn [client sent].
  change (NewClient "test@example.com" "dc771129ae047c934adba2d1dc4fe184") with cl.
  change (url_Parse_ok (Client.apiBase cl +:+ "/zones?per_page=1000"))
    with (url_Parse_ok (http.Request.URL get)).
  rewrite Hu1. cbv zeta. fold cl. fold get. rewrite Hw, Hzones.
  rewrite (findExampleZone_first _ _ _ _ Hpre Hname).
  destruct (String.eqb_spec (Zone.ID z) EmptyString) as [E|_]; [contradiction|].
  cbn [negb]. rewrite CreateDNSRecord_unfold. cbn [afterSending client sent].
  change (url_Parse_ok (Client.apiBase cl +:+ "/zones/" +:+ Zone.ID z +:+ "/dns_records"))
    with (url_Parse_ok (http.Request.URL post_)).
  rewrite Hu2. cbv zeta. unfold payload.
  assert (Hb : jsonReader (newRecord "test.example.com" "A" "192.168.0.2") = ok (jsontext
      "{'name':'test.example.com','type':'A','content':'192.168.0.2','proxiable':false,'proxied':false,'locked':false,'created_on':'0001-01-01T00:00:00Z','modified_on':'0001-01-01T00:00:00Z'}")).
  { rewrite jsonReader_newRecord. vm_compute. reflexivity. }
  rewrite Hb. fold cl. fold post_.
  destruct (RoundTrip (sent st ++ [get]) post_) as [w'|e]; cbv beta iota.
  - destruct (http.wireStatusCode w' =? 200); cbn [fst snd afterSending sent];
      rewrite <- app_assoc; split; reflexivity.
  - cbn [fst snd afterSending sent]. rewrite <- app_assoc. split; reflexivity.
Qed.

(** When no zone of the list is named [example.com], or the first one
    that is has no ID, the example creates nothing, even if a later zone
    named [example.com] has an ID: it returns after its one request. *)
Theorem example_creates_nothing_without_id st w zones :
  let cl := NewClient "test@example.com" "dc771129ae047c934adba2d1dc4fe184" in
  let get := requestOf cl "GET" "/zones?per_page=1000" None in
  url_Parse_ok (http.Request.URL get) = true ->
  RoundTrip (sent st) get = ok w ->
  Decode_cfZoneResult (http.wireBody w) = ok zones ->
  Forall (fun z' => Zone.Name z' <> "example.com"%string) zones \/
  (exists pre z post,
     zones = pre ++ z :: post /\
     Forall (fun z' => Zone.Name z' <> "example.com"%string) pre /\
     Zone.Name z = "example.com"%string /\ Zone.ID z = EmptyString) ->
  sent (snd (ExampleClient st)) = sent st ++ [get] /\
  fst (ExampleClient st) = returns.
Proof.
  intros cl get Hu1 Hw Hzones Hcase.
  unfold ExampleClient, useClient, mbind, M_bind, mret, M_ret. cbv beta iota.
  rewrite ListZones_unfold.
  cbn [client sent].
  change (NewClient "test@example.com" "dc771129ae047c934adba2d1dc4fe184") with cl.
  change (url_Parse_ok (Client.apiBase cl +:+ "/zones?per_page=1000"))
    with (url_Parse_ok (http.Request.URL get)).
  rewrite Hu1. cbv zeta. fold cl. fold get. rewrite Hw, Hzones.
  assert (Hz : Zone.ID (findExampleZone zones Zone.zero) = EmptyString).
  { destruct Hcase as [Hnone|(pre & z & post & -> & Hpre & Hname & Hid)].
    - rewrite (findExampleZone_none _ _ Hnone). reflexivity.
    - rewrite (findExampleZone_first _ _ _ _ Hpre Hname). exact Hid. }
  rewrite Hz. cbv beta iota. cbn [String.eqb negb fst snd afterSending sent].
  split; reflexivity.
Qed.

(** When [ListZones] fails the example panics with its error and creates
    nothing. *)
Theorem example_panics_when_listing_fails st err :
  let cl := NewClient "test@example.com" "dc771129ae047c934adba2d1dc4fe184" in
  let st0 := {| client := cl; sent := sent st; opened := opened st; closed := closed st |} in
  fst (ListZones st0) = fail err ->
  fst (ExampleClient st) = panics err /\
  snd (ExampleClient st) = snd (ListZones st0) /\
  Forall (fun req => http.Request.Method req = "GET"%string)
    (drop (length (sent st)) (sent (snd (ExampleClient st)))).
Proof.
  intros cl st0 Hfail.
  unfold ExampleClient, useClient, mbind, M_bind, mret, M_ret. cbv beta iota.
  fold cl. fold st0.
  destruct (ListZones st0) as [r st1] eqn:Hl. cbn [fst] in Hfail. subst r.
  cbn [fst snd]. split; [reflexivity|]. split; [reflexivity|].
  rewrite ListZones_unfold in Hl. cbn [client sent st0] in Hl.
  destruct (url_Parse_ok _).
  - cbv zeta in Hl. destruct (RoundTrip _ _); injection Hl as _ <-;
      cbn [afterSending sent]; rewrite drop_app_length; repeat constructor.
  - injection Hl as _ <-. cbn [sent st0]. rewrite drop_all. constructor.
Qed.

(** *** What follows the first value of a body *)

Ltac split_ifs :=
  repeat match goal with
         | |- context [if ?b then _ else _] => destruct b eqn:?
         end.

Lemma valueDone_kept c ps v :
  (ps = [] -> ~ delimited v) -> scalarKept c (json.valueDone ps v).
Proof.
  intros H. destruct ps as [|[] r]; cbn; auto.
Qed.

Lemma popParseState_kept c r v :
  json.isSpace c = false -> scalarKept c (json.popParseState r v).
Proof.
  intros H. destruct r as [|f r]; cbn [json.popParseState].
  - right. exact H.
  - apply valueDone_kept. discriminate.
Qed.

Lemma endValue_kept c s :
  scalarPending s -> scalarKept c (json.endValue s c).
Proof.
  destruct s as [st ps]. unfold scalarPending, json.endValue.
  cbn [json.step json.parseState]. intros H.
  destruct st; try (cbn; auto; fail);
    (destruct ps as [|f r]; [exact I|]);
    (destruct (json.isSpace c) eqn:Hsp; [exact I|]);
    destruct f; split_ifs; try exact I; apply popParseState_kept, Hsp.
Qed.

Lemma numberDone_kept c ps lit : scalarKept c (json.numberDone ps lit c).
Proof.
  unfold json.numberDone.
  pose proof (valueDone_kept c ps (json.Number (json.rev_string lit))) as H.
  destruct (json.valueDone ps _) as [s| |]; try (apply H; auto; fail).
  apply endValue_kept. apply H. auto.
Qed.

Lemma stringDone_kept c ps lit : scalarKept c (json.stringDone ps lit).
Proof.
  unfold json.stringDone. destruct (json.unquote _); [|exact I].
  destruct ps as [|[] r]; try exact I; try (apply valueDone_kept; auto).
Qed.

Lemma beginValue_kept c ps : scalarKept c (json.beginValue ps c).
Proof.
  unfold json.beginValue, json.pushParseState. split_ifs; cbn; auto.
Qed.

Lemma beginString_kept c ps : scalarKept c (json.beginString ps c).
Proof. unfold json.beginString. split_ifs; cbn; auto. Qed.

Lemma after0_kept c ps lit : scalarKept c (json.after0 ps lit c).
Proof.
  unfold json.after0. split_ifs; try exact I. apply numberDone_kept.
Qed.

Lemma afterESign_kept c ps lit : scalarKept c (json.afterESign ps lit c).
Proof. unfold json.afterESign. split_ifs; exact I. Qed.

Lemma scan_kept s c : scalarPending s -> scalarKept c (json.scan s c).
Proof.
  intros H. pose proof (endValue_kept c s H) as He.
  destruct s as [st ps]. unfold json.scan. cbn [json.step json.parseState] in *.
  destruct st; try exact He; try apply beginValue_kept; try apply beginString_kept;
    try apply after0_kept; try apply afterESign_kept.
  - split_ifs; try exact I; try exact He. apply beginValue_kept.
  - destruct (json.isSpace c) eqn:Hsp; [exact I|].
    destruct (Ascii.eqb c "}"); [|apply beginString_kept].
    destruct ps as [|[] r]; try exact I.
    unfold json.endValue. cbn [json.step json.parseState]. rewrite Hsp.
    split_ifs; try exact I; apply popParseState_kept, Hsp.
  - split_ifs; try exact I. apply stringDone_kept.
  - split_ifs; exact I.
  - destruct (json.hexval c); split_ifs; exact I.
  - split_ifs; exact I.
  - split_ifs; try exact I. apply after0_kept.
  - split_ifs; exact I.
  - split_ifs; try exact I. apply numberDone_kept.
  - split_ifs; try exact I. apply afterESign_kept.
  - split_ifs; try exact I. apply numberDone_kept.
  - unfold scalarPending in H. cbn [json.step] in H.
    destruct rest as [|x [|y rest']]; split_ifs; try exact I.
    + apply valueDone_kept. auto.
    + exact H.
Qed.

Lemma readValueFrom_delimited a : forall s rest v,
  scalarPending s -> delimited v ->
  json.readValueFrom s a = ok v ->
  json.readValueFrom s (a +:+ rest) = ok v.
Proof.
  induction a as [|c a IH]; intros s rest v Hs Hv H.
  - cbn [json.readValueFrom] in H. unfold json.atEOF in H.
    pose proof (scan_kept s " " Hs) as Hk.
    destruct (json.scan s " ") as [s'|v'|].
    + destruct (json.step s), (json.parseState s); discriminate H.
    + injection H as ->. destruct Hk as [Hk|Hk]; [contradiction|discriminate Hk].
    + destruct (json.step s), (json.parseState s); discriminate H.
  - rewrite append_cons. cbn [json.readValueFrom] in *.
    pose proof (scan_kept s c Hs) as Hk.
    destruct (json.scan s c) as [s'|v'|]; [|exact H|exact H].
    apply IH; assumption.
Qed.

(** The decoder reads the first JSON value of the body: when that is an
    object, the list calls take no notice of whatever follows its closing
    brace. *)
Theorem list_calls_ignore_trailing_data body rest members :
  json.readValue body = ok (json.Object members) ->
  Decode_cfZoneResult (body +:+ rest) = Decode_cfZoneResult body /\
  Decode_cfDNSResult (body +:+ rest) = Decode_cfDNSResult body.
Proof.
  intros H. unfold Decode_cfZoneResult, Decode_cfDNSResult, json.readValue in *.
  rewrite (readValueFrom_delimited body json.reset rest (json.Object members) I I H), H.
  split; reflexivity.
Qed.

(** *** [String] *)

Lemma space_splits a : forall a' b b',
  contains a " " = false -> contains a' " " = false ->
  a +:+ String " " b = a' +:+ String " " b' -> a = a' /\ b = b'.
Proof.
  induction a as [|c a IH]; intros [|c' a'] b b' Ha Ha' H;
    rewrite ?append_cons, ?append_nil in H.
  - injection H as ->. split; reflexivity.
  - injection H as <- _. cbn in Ha'. discriminate Ha'.
  - injection H as -> _. cbn in Ha. discriminate Ha.
  - injection H as -> H.
    cbn [contains isPrefix] in Ha, Ha'.
    apply orb_false_elim in Ha as [_ Ha]. apply orb_false_elim in Ha' as [_ Ha'].
    destruct (IH _ _ _ Ha Ha' H) as [-> ->]. split; reflexivity.
Qed.

(** Two records whose names and types hold no space print the same only
    if they have the same name, type and content. *)
Theorem String_tells_records_apart (r r' : DNSRecord) :
  contains (DNSRecord.Name r) " " = false ->
  contains (DNSRecord.Type' r) " " = false ->
  contains (DNSRecord.Name r') " " = false ->
  contains (DNSRecord.Type' r') " " = false ->
  DNSRecord.String r = DNSRecord.String r' ->
  DNSRecord.Name r = DNSRecord.Name r' /\
  DNSRecord.Type' r = DNSRecord.Type' r' /\
  DNSRecord.Content r = DNSRecord.Content r'.
Proof.
  intros Hn Ht Hn' Ht' H. unfold DNSRecord.String in H.
  rewrite !append_cons, !append_nil in H.
  apply space_splits in H as [Hname H]; [|assumption..].
  apply space_splits in H as [Htype Hcontent]; [|assumption..].
  auto.
Qed.
End cfdns.

Arguments callListZones {Any}.
Arguments callListDNSRecords {Any} zoneID.
Arguments callCreateDNSRecord {Any} zoneID name rectype content.
Arguments callUpdateDNSRecord {Any} rec.
Arguments callDeleteDNSRecord {Any} rec.
Arguments returnedError {Any} r.

(** ** The scenarios *)

(** C1 at the scenario, for each of the three operations: creating a
    record in zone [z1], updating the record [r1] and deleting it, against
    a service that answers [403 Forbidden], each return an error whose
    message is ["403 Forbidden"]; against a service that answers
    [200 OK], creating returns nil. *)
Lemma mutating_call_nil_iff_200_witness :
  let st := freshState "test@example.com" "k" in
  let outcome net c :=
    returnedError (call chanOnly chanMarshal chanUnmarshal noTime anyURL net c st).1 in
  let refused := answering "403 Forbidden" 403 "{}" in
  let accepted := answering "200 OK" 200 "{}" in
  let create := callCreateDNSRecord "z1" "test.example.com" "A" "192.168.0.2" in
  ((outcome refused create = None <-> 403 = 200) /\
   (403 <> 200 ->
    exists e, outcome refused create = Some e /\ Error e = "403 Forbidden")) /\
  ((outcome refused (callUpdateDNSRecord recordR1) = None <-> 403 = 200) /\
   (403 <> 200 ->
    exists e, outcome refused (callUpdateDNSRecord recordR1) = Some e /\
              Error e = "403 Forbidden")) /\
  ((outcome refused (callDeleteDNSRecord recordR1) = None <-> 403 = 200) /\
   (403 <> 200 ->
    exists e, outcome refused (callDeleteDNSRecord recordR1) = Some e /\
              Error e = "403 Forbidden")) /\
  ((outcome accepted create = None <-> 200 = 200) /\
   (200 <> 200 ->
    exists e, outcome accepted create = Some e /\ Error e = "200 OK")).
Proof.
  intros st outcome refused accepted create.
  split; [|split; [|split]].
  - apply (mutating_call_nil_iff_200 chanOnly chanMarshal chanUnmarshal noTime anyURL
             refused create st
             {| http.wireStatus := "403 Forbidden"; http.wireStatusCode := 403;
                http.wireBody := "{}" |}).
    + reflexivity.
    + vm_compute. reflexivity.
    + reflexivity.
  - apply (mutating_call_nil_iff_200 chanOnly chanMarshal chanUnmarshal noTime anyURL
             refused (callUpdateDNSRecord recordR1) st
             {| http.wireStatus := "403 Forbidden"; http.wireStatusCode := 403;
                http.wireBody := "{}" |}).
    + reflexivity.
    + vm_compute. reflexivity.
    + reflexivity.
  - apply (mutating_call_nil_iff_200 chanOnly chanMarshal chanUnmarshal noTime anyURL
             refused (callDeleteDNSRecord recordR1) st
             {| http.wireStatus := "403 Forbidden"; http.wireStatusCode := 403;
                http.wireBody := "{}" |}).
    + reflexivity.
    + vm_compute. reflexivity.
    + reflexivity.
  - apply (mutating_call_nil_iff_200 chanOnly chanMarshal chanUnmarshal noTime anyURL
             accepted create st
             {| http.wireStatus := "200 OK"; http.wireStatusCode := 200;
                http.wireBody := "{}" |}).
    + reflexivity.
    + vm_compute. reflexivity.
    + reflexivity.
Defined.

(** C3 at the scenario: the body [{"result":[{"id":"z1","name":"example.com"}]}]
    yields the one zone [z1] named [example.com]. *)
Lemma list_zones_returns_result_array_witness :
  (ListZones noTime anyURL
     (answering "200 OK" 200 (jsontext "{'result':[{'id':'z1','name':'example.com'}]}"))
     (freshState "test@example.com" "k")).1 = ok [zoneZ1] /\
  length [zoneZ1] = 1%nat.
Proof.
  apply (list_zones_returns_result_array chanOnly chanMarshal chanUnmarshal noTime anyURL
           (answering "200 OK" 200 (jsontext "{'result':[{'id':'z1','name':'example.com'}]}"))
           (freshState "test@example.com" "k")
           (requestOf (NewClient "test@example.com" "k") "GET" "/zones?per_page=1000" None)
           {| http.wireStatus := "200 OK"; http.wireStatusCode := 200;
              http.wireBody := jsontext "{'result':[{'id':'z1','name':'example.com'}]}" |}
           [] "result"
           [json.Object [("id", json.Str "z1"); ("name", json.Str "example.com")]]
           [] [zoneZ1]).
  - vm_compute. reflexivity.
  - reflexivity.
  - vm_compute. reflexivity.
  - vm_compute. reflexivity.
  - intros kv H. inversion H.
  - constructor; [vm_compute; reflexivity|constructor].
Defined.

(** An empty [result] array yields the empty sequence and no error. *)
Lemma list_zones_empty_result :
  (ListZones noTime anyURL (answering "200 OK" 200 (jsontext "{'result':[]}"))
     (freshState "test@example.com" "k")).1 = ok [].
Proof. vm_compute. reflexivity. Qed.


(** C6 at an example: the request of [ListDNSRecords "z1"]. *)
Lemma requests_carry_credentials_and_endpoint_witness :
  let req := requestOf (NewClient "test@example.com" "k") "GET"
               "/zones/z1/dns_records?per_page=1000" None in
  http.Request.Header req !! "X-Auth-Email" = Some ["test@example.com"%string] /\
  http.Request.Header req !! "X-Auth-Key" = Some ["k"%string] /\
  http.Request.Method req = "GET"%string /\
  http.Request.URL req
    = "https://api.cloudflare.com/client/v4/zones/z1/dns_records?per_page=1000"%string /\
  "/zones/z1/dns_records?per_page=1000"%string = "/zones/z1/dns_records?per_page=1000"%string.
Proof.
  intros req.
  apply (requests_carry_credentials_and_endpoint chanOnly chanMarshal chanUnmarshal noTime
           anyURL unreachable "test@example.com" "k" (callListDNSRecords "z1")
           (freshState "test@example.com" "k") req).
  - reflexivity.
  - vm_compute. apply list_elem_of_here.
Defined.

(** C10 at an example: a record with a channel in [Data]. *)
Lemma update_returns_serialization_error_witness :
  UpdateDNSRecord chanOnly chanMarshal anyURL (answering "200 OK" 200 "{}") recordChan
    (freshState "test@example.com" "k")
  = (Some (jsonErr UnsupportedError), freshState "test@example.com" "k") /\
  issued chanOnly chanMarshal chanUnmarshal noTime anyURL (answering "200 OK" 200 "{}")
    (callUpdateDNSRecord recordChan) (freshState "test@example.com" "k") = [].
Proof.
  apply (update_returns_serialization_error chanOnly chanMarshal chanUnmarshal noTime anyURL
           (answering "200 OK" 200 "{}") recordChan (jsonErr UnsupportedError)
           (freshState "test@example.com" "k")).
  vm_compute. reflexivity.
Defined.



(** ** Further scenarios *)


(** A zone identifier with a space in it, and a [url.Parse] that refuses
    spaces: [ListDNSRecords] sends nothing. *)
Lemma unparsable_url_sends_nothing_witness :
  let st := freshState "test@example.com" "k" in
  let r := call chanOnly chanMarshal chanUnmarshal noTime noSpaceURL
             (answering "200 OK" 200 "{}") (callListDNSRecords "z 1") st in
  r.2 = st /\
  issued chanOnly chanMarshal chanUnmarshal noTime noSpaceURL
    (answering "200 OK" 200 "{}") (callListDNSRecords "z 1") st = [] /\
  returnedError r.1 =
    Some (urlError
            "https://api.cloudflare.com/client/v4/zones/z 1/dns_records?per_page=1000").
Proof.
  intros st r.
  apply (unparsable_url_sends_nothing chanOnly chanMarshal chanUnmarshal noTime noSpaceURL
           (answering "200 OK" 200 "{}") (callListDNSRecords "z 1") st).
  vm_compute. reflexivity.
Defined.

(** The request of [UpdateDNSRecord] for the record [r1]: two headers, no
    [Content-Type]. *)
Lemma requests_have_two_headers_only_witness :
  let req := requestOf (NewClient "test@example.com" "k") "PUT" "/zones/z1/dns_records/r1"
               (Some (jsontext "{'name':'www.example.com','type':'A','content':'192.0.2.1','id':'r1','ttl':300,'proxiable':false,'proxied':false,'locked':false,'zone_id':'z1','zone_name':'example.com','created_on':'0001-01-01T00:00:00Z','modified_on':'0001-01-01T00:00:00Z'}")) in
  size (http.Request.Header req) = 2%nat /\
  http.Request.Header req !! "Content-Type" = None /\
  forall key, key <> "X-Auth-Email"%string -> key <> "X-Auth-Key"%string ->
    http.Request.Header req !! key = None.
Proof.
  intros req.
  apply (requests_have_two_headers_only chanOnly chanMarshal chanUnmarshal noTime anyURL
           (answering "200 OK" 200 "{}") (callUpdateDNSRecord recordR1)
           (freshState "test@example.com" "k") req).
  vm_compute. reflexivity.
Defined.

(** The request of [DeleteDNSRecord] for the record [r1] has no body. *)
Lemma body_goes_with_method_witness :
  http.Request.Body
    (requestOf (NewClient "test@example.com" "k") "DELETE" "/zones/z1/dns_records/r1" None)
  = None.
Proof.
  apply (body_goes_with_method chanOnly chanMarshal chanUnmarshal noTime anyURL
           (answering "200 OK" 200 "{}") (callDeleteDNSRecord recordR1)
           (freshState "test@example.com" "k")
           (requestOf (NewClient "test@example.com" "k") "DELETE"
              "/zones/z1/dns_records/r1" None)).
  vm_compute. reflexivity.
Defined.




(** The service lists the record [r1] of zone [z1]. *)
Lemma list_records_returns_result_array_witness :
  (ListDNSRecords chanOnly chanUnmarshal noTime anyURL
     (answering "200 OK" 200
        (jsontext "{'success':true,'result':[{'id':'r1','type':'A','name':'www.example.com','content':'192.0.2.1','ttl':300,'zone_id':'z1','zone_name':'example.com'}]}"))
     "z1" (freshState "test@example.com" "k")).1 = ok [recordR1] /\
  length [recordR1] = 1%nat.
Proof.
  apply (list_records_returns_result_array chanOnly chanMarshal chanUnmarshal noTime anyURL
           (answering "200 OK" 200
              (jsontext "{'success':true,'result':[{'id':'r1','type':'A','name':'www.example.com','content':'192.0.2.1','ttl':300,'zone_id':'z1','zone_name':'example.com'}]}"))
           "z1" (freshState "test@example.com" "k")
           (requestOf (NewClient "test@example.com" "k") "GET"
              "/zones/z1/dns_records?per_page=1000" None)
           {| http.wireStatus := "200 OK"; http.wireStatusCode := 200;
              http.wireBody := jsontext "{'success':true,'result':[{'id':'r1','type':'A','name':'www.example.com','content':'192.0.2.1','ttl':300,'zone_id':'z1','zone_name':'example.com'}]}" |}
           [("success", json.Bool true)] "result"
           [json.Object [("id", json.Str "r1"); ("type", json.Str "A");
                         ("name", json.Str "www.example.com");
                         ("content", json.Str "192.0.2.1"); ("ttl", json.Number "300");
                         ("zone_id", json.Str "z1"); ("zone_name", json.Str "example.com")]]
           [] [recordR1]).
  - vm_compute. reflexivity.
  - reflexivity.
  - vm_compute. reflexivity.
  - vm_compute. reflexivity.
  - intros kv Hin. apply elem_of_cons in Hin as [->|Hin]; [vm_compute; reflexivity|inversion Hin].
  - constructor; [vm_compute; reflexivity|constructor].
Defined.

(** A name with bytes that are escaped: [<b>&] is written as
    ["<b>&"] and read back as it was. *)
Lemma string_field_round_trip_witness :
  json.readValue (json.appendString "<b>&") = ok (json.Str "<b>&") /\
  json.decodeString EmptyString (json.Str "<b>&") = ok "<b>&"%string.
Proof.
  apply (string_field_round_trip "<b>&"). vm_compute. reflexivity.
Defined.

(** The record of the example, listed back. *)
Lemma created_record_lists_back_witness :
  Decode_cfDNSResult chanOnly chanUnmarshal zeroTimeOnly
    (jsontext "{'result':[" +:+
     jsontext "{'name':'test.example.com','type':'A','content':'192.168.0.2','proxiable':false,'proxied':false,'locked':false,'created_on':'0001-01-01T00:00:00Z','modified_on':'0001-01-01T00:00:00Z'}"
     +:+ "]}")
  = ok [newRecord chanOnly "test.example.com" "A" "192.168.0.2"].
Proof.
  apply (created_record_lists_back chanOnly chanMarshal chanUnmarshal zeroTimeOnly
           "test.example.com" "A" "192.168.0.2").
  - vm_compute. reflexivity.
  - vm_compute. reflexivity.
  - vm_compute. reflexivity.
  - reflexivity.
  - vm_compute. reflexivity.
Defined.

(** A body with a second line after the object. *)
Lemma list_calls_ignore_trailing_data_witness :
  Decode_cfZoneResult noTime (jsontext "{'result':[]}" +:+ "<html>")
    = Decode_cfZoneResult noTime (jsontext "{'result':[]}") /\
  Decode_cfDNSResult chanOnly chanUnmarshal noTime (jsontext "{'result':[]}" +:+ "<html>")
    = Decode_cfDNSResult chanOnly chanUnmarshal noTime (jsontext "{'result':[]}").
Proof.
  apply (list_calls_ignore_trailing_data chanOnly chanUnmarshal noTime
           (jsontext "{'result':[]}") "<html>" [("result", json.Array [])]).
  vm_compute. reflexivity.
Defined.

(** The example against a service that lists the zone [z1] and accepts
    the record. *)
Lemma example_creates_record_in_first_example_zone_witness :
  let cl := NewClient "test@example.com" "dc771129ae047c934adba2d1dc4fe184" in
  let net := answering "200 OK" 200
               (jsontext "{'result':[{'id':'z1','name':'example.com'}]}") in
  let r := ExampleClient chanOnly chanMarshal noTime anyURL net
             (freshState "other@example.com" "k") in
  sent r.2 =
    [] ++ [requestOf cl "GET" "/zones?per_page=1000" None;
           requestOf cl "POST" "/zones/z1/dns_records"
             (Some (jsontext "{'name':'test.example.com','type':'A','content':'192.168.0.2','proxiable':false,'proxied':false,'locked':false,'created_on':'0001-01-01T00:00:00Z','modified_on':'0001-01-01T00:00:00Z'}"))] /\
  r.1 = returns.
Proof.
  intros cl net r.
  apply (example_creates_record_in_first_example_zone chanOnly chanMarshal chanUnmarshal
           noTime anyURL net (freshState "other@example.com" "k")
           {| http.wireStatus := "200 OK"; http.wireStatusCode := 200;
              http.wireBody := jsontext "{'result':[{'id':'z1','name':'example.com'}]}" |}
           [] zoneZ1 []).
  - reflexivity.
  - reflexivity.
  - reflexivity.
  - vm_compute. reflexivity.
  - constructor.
  - reflexivity.
  - discriminate.
Defined.

(** The example against a service that lists a zone [example.com] without
    its identifier before the zone [z1]: one request, nothing created. *)
Lemma example_creates_nothing_without_id_witness :
  let cl := NewClient "test@example.com" "dc771129ae047c934adba2d1dc4fe184" in
  let net := answering "200 OK" 200
               (jsontext "{'result':[{'name':'example.com'},{'id':'z1','name':'example.com'}]}") in
  let r := ExampleClient chanOnly chanMarshal noTime anyURL net
             (freshState "other@example.com" "k") in
  sent r.2 = [] ++ [requestOf cl "GET" "/zones?per_page=1000" None] /\
  r.1 = returns.
Proof.
  intros cl net r.
  apply (example_creates_nothing_without_id chanOnly chanMarshal chanUnmarshal
           noTime anyURL net (freshState "other@example.com" "k")
           {| http.wireStatus := "200 OK"; http.wireStatusCode := 200;
              http.wireBody := jsontext "{'result':[{'name':'example.com'},{'id':'z1','name':'example.com'}]}" |}
           [zoneNoID; zoneZ1]).
  - reflexivity.
  - reflexivity.
  - vm_compute. reflexivity.
  - right. exists [], zoneNoID, [zoneZ1].
    split; [reflexivity|]. split; [constructor|]. split; reflexivity.
Defined.

(** The example with the network down. *)
Lemma example_panics_when_listing_fails_witness :
  let cl := NewClient "test@example.com" "dc771129ae047c934adba2d1dc4fe184" in
  let st := freshState "other@example.com" "k" in
  let st0 := {| client := cl; sent := sent st; opened := opened st; closed := closed st |} in
  let r := ExampleClient chanOnly chanMarshal noTime anyURL unreachable st in
  r.1 = panics (transportError "dial tcp: connection refused") /\
  r.2 = (ListZones noTime anyURL unreachable st0).2 /\
  Forall (fun req => http.Request.Method req = "GET"%string)
    (drop (length (sent st)) (sent r.2)).
Proof.
  intros cl st st0 r.
  apply (example_panics_when_listing_fails chanOnly chanMarshal chanUnmarshal
           noTime anyURL unreachable st (transportError "dial tcp: connection refused")).
  vm_compute. reflexivity.
Defined.

(** The record [r1] and the same record with a channel in [Data] print
    the same: they have the same name, type and content. *)
Lemma String_tells_records_apart_witness :
  DNSRecord.Name recordR1 = DNSRecord.Name recordChan /\
  DNSRecord.Type' recordR1 = DNSRecord.Type' recordChan /\
  DNSRecord.Content recordR1 = DNSRecord.Content recordChan.
Proof.
  apply (String_tells_records_apart chanOnly recordR1 recordChan);
    vm_compute; reflexivity.
Defined.
